(** * Loan present-value calculator: embedding and verification

    The program under study is [loan_calculator.py]: a class of four
    validation constants, four validators that raise [ValueError], and
    [calculate_present_value], which validates its arguments, derives the
    periodic rate, and either returns [payment * periods] (zero rate) or
    the rounded product of the payment and a discount factor.

    Python's [float] is IEEE-754 binary64.  The arithmetic is modelled
    here by its defining property: every operation returns the binary64
    value nearest to the exact result, ties to even.  *)

From Stdlib Require Import ZArith QArith Qabs Qpower Lia Lqa Bool List String.
Import ListNotations.

Open Scope Z_scope.

(* ================================================================== *)
(** ** Binary64 arithmetic *)

Module Binary64.

(** Every finite binary64 value is an integer multiple of [2^-1074], the
    smallest subnormal.  A finite value is stored as that integer: [Fin n]
    stands for [n * 2^-1074].  The sign of zero is not tracked: the
    calculator never divides by a zero and never inspects a sign bit. *)
Inductive float64 : Type :=
| NaN
| Inf (neg : bool)
| Fin (n : Z).

Definition unit_exp : Z := 1074.
Definition units_pos : positive := Pos.pow 2 1074.
Definition units : Z := Zpos units_pos.

(** [top] is [2^1024] counted in units: the first magnitude that is no
    longer finite. *)
Definition top : Z := 2 ^ (1024 + unit_exp).

(** Nearest integer to [a / b] for [0 < b], ties to the even neighbour. *)
Definition rne_div (a b : Z) : Z :=
  let q := a / b in
  match 2 * (a mod b) ?= b with
  | Lt => q
  | Gt => q + 1
  | Eq => if Z.even q then q else q + 1
  end.

(** Nearest 53-bit significand value to [a / b] units, for [0 <= a] and
    [0 < b].  Below [2^53] units the grid step is one unit (this covers the
    subnormal range and the first normal binade); above, the step is
    [2^k] with [k] chosen from the binade of [a / b]. *)
Definition round_grid (a b : Z) : Z :=
  let k := Z.max 0 (Z.log2 (a / b) - 52) in
  rne_div a (b * 2 ^ k) * 2 ^ k.

Definition nearest (a b : Z) : Z :=
  if a <? 0 then - round_grid (- a) b else round_grid a b.

(** Round-to-nearest-even of [a / b] units into binary64, overflowing to
    an infinity. *)
Definition rnd (a b : Z) : float64 :=
  let n := nearest a b in
  if top <=? Z.abs n then Inf (n <? 0) else Fin n.

(** The binary64 value nearest to a rational; this is also how a decimal
    literal of the source is read. *)
Definition of_Q (q : Q) : float64 := rnd (Qnum q * units) (Zpos (Qden q)).

Definition of_Z (z : Z) : float64 := of_Q (inject_Z z).

(** The literal [m]e[e], e.g. [dec 5 (-2)] for [0.05]. *)
Definition dec (m e : Z) : float64 := of_Q (inject_Z m * Qpower 10 e)%Q.

(** Exact value of a finite float, in lowest terms (Python's
    [float.as_integer_ratio]). *)
Definition to_Q (n : Z) : Q := Qred (n # units_pos).

Definition fneg (x : float64) : float64 :=
  match x with
  | NaN => NaN
  | Inf s => Inf (negb s)
  | Fin n => Fin (- n)
  end.

Definition fadd (x y : float64) : float64 :=
  match x, y with
  | NaN, _ | _, NaN => NaN
  | Inf s, Inf t => if Bool.eqb s t then Inf s else NaN
  | Inf s, Fin _ | Fin _, Inf s => Inf s
  | Fin a, Fin b => of_Q (to_Q a + to_Q b)
  end.

Definition fsub (x y : float64) : float64 := fadd x (fneg y).

Definition fmul (x y : float64) : float64 :=
  match x, y with
  | NaN, _ | _, NaN => NaN
  | Inf s, Inf t => Inf (xorb s t)
  | Inf s, Fin n | Fin n, Inf s =>
      if n =? 0 then NaN else Inf (xorb s (n <? 0))
  | Fin a, Fin b => of_Q (to_Q a * to_Q b)
  end.

(** Quotient by a divisor other than zero (Python raises on a zero
    divisor before the hardware division is reached). *)
Definition fdiv (x y : float64) : float64 :=
  match x, y with
  | NaN, _ | _, NaN => NaN
  | Inf _, Inf _ => NaN
  | Inf s, Fin b => Inf (xorb s (b <? 0))
  | Fin _, Inf _ => Fin 0
  | Fin a, Fin b => of_Q (to_Q a / to_Q b)
  end.

(** Ordered comparison; [None] when an operand is a NaN. *)
Definition fcompare (x y : float64) : option comparison :=
  match x, y with
  | NaN, _ | _, NaN => None
  | Inf s, Inf t => Some (if Bool.eqb s t then Eq else if s then Lt else Gt)
  | Inf s, Fin _ => Some (if s then Lt else Gt)
  | Fin _, Inf s => Some (if s then Gt else Lt)
  | Fin a, Fin b => Some (a ?= b)
  end.

(** [x ** z] for an integer exponent and a finite base other than zero:
    the exact rational power, rounded once.  CPython hands the operation to
    the C library's [pow], which returns this value up to an error below
    one unit in the last place. *)
Definition fpow_fin (n z : Z) : float64 := of_Q (Qpower (to_Q n) z).

(** [round(x, 2)] on a float: the exact value is rounded to the nearest
    multiple of 1/100 (ties to even), and the float nearest to that
    decimal is returned.  Infinities and NaN round to themselves. *)
Definition round2 (x : float64) : float64 :=
  match x with
  | Fin n => let q := to_Q n in
             of_Q (rne_div (Qnum q * 100) (Zpos (Qden q)) # 100)
  | _ => x
  end.


(** [x <= y] holds as a float comparison (false on NaN). *)
Definition fle (x y : float64) : Prop :=
  match fcompare x y with
  | Some Lt | Some Eq => True
  | _ => False
  end.

(** A finite value between [lo] and [hi] units. *)
Definition fin_between (lo hi : Z) (x : float64) : Prop :=
  exists m, x = Fin m /\ lo <= m <= hi.

(** A value that is not NaN and not below [lo] units; it may be the
    positive infinity. *)
Definition at_least (lo : Z) (x : float64) : Prop :=
  match x with
  | Fin m => lo <= m
  | Inf s => s = false
  | NaN => False
  end.

(** The magnitudes of the binary64 grid: a significand below [2^53]
    scaled by a power of two, counted in units. *)
Definition representable (d : Z) : Prop :=
  exists m j, 0 <= m < 2 ^ 53 /\ 0 <= j /\ d = m * 2 ^ j.

End Binary64.

(* ================================================================== *)
(** ** Python values, exceptions and numeric operators *)

Module Py.
Import Binary64.

Open Scope string_scope.
Open Scope Z_scope.

Inductive pyval : Type :=
| PyNone
| PyBool (b : bool)
| PyInt (z : Z)
| PyFloat (x : float64)
| PyStr (s : string).

Inductive exn : Type :=
| ValueError (msg : string)
| TypeError
| ZeroDivisionError
| OverflowError.

Inductive outcome (A : Type) : Type :=
| Return (a : A)
| Raise (e : exn).
Arguments Return {A} a.
Arguments Raise {A} e.

Definition bind {A B : Type} (m : outcome A) (k : A -> outcome B) : outcome B :=
  match m with
  | Return a => k a
  | Raise e => Raise e
  end.

Notation "x <- m ;; k" := (bind m (fun x => k))
  (at level 61, m at next level, right associativity).
Notation "m ;;; k" := (bind m (fun _ => k))
  (at level 61, right associativity).

(** Numbers after Python's numeric coercion: [bool] is a subclass of
    [int]. *)
Inductive num : Type :=
| NInt (z : Z)
| NFloat (x : float64).

(** [isinstance(v, (int, float))] succeeds exactly when [as_num v] does. *)
Definition as_num (v : pyval) : option num :=
  match v with
  | PyBool b => Some (NInt (if b then 1 else 0))
  | PyInt z => Some (NInt z)
  | PyFloat x => Some (NFloat x)
  | _ => None
  end.

(** [isinstance(v, int)] succeeds exactly when [as_int v] does. *)
Definition as_int (v : pyval) : option Z :=
  match v with
  | PyBool b => Some (if b then 1 else 0)
  | PyInt z => Some z
  | _ => None
  end.

Definition of_num (x : num) : pyval :=
  match x with
  | NInt z => PyInt z
  | NFloat f => PyFloat f
  end.

(** Comparison of numbers is exact, also between an [int] and a [float]. *)
Definition num_compare (a b : num) : option comparison :=
  match a, b with
  | NInt x, NInt y => Some (x ?= y)
  | NFloat x, NFloat y => fcompare x y
  | NInt x, NFloat y => fcompare (Fin (x * units)) y
  | NFloat x, NInt y => fcompare x (Fin (y * units))
  end.

Definition num_lt (a b : num) : bool :=
  match num_compare a b with Some Lt => true | _ => false end.
Definition num_gt (a b : num) : bool :=
  match num_compare a b with Some Gt => true | _ => false end.
Definition num_le (a b : num) : bool :=
  match num_compare a b with Some Lt | Some Eq => true | _ => false end.
Definition num_ge (a b : num) : bool :=
  match num_compare a b with Some Gt | Some Eq => true | _ => false end.
Definition num_eq (a b : num) : bool :=
  match num_compare a b with Some Eq => true | _ => false end.

(** [float(z)]: the nearest float, or [OverflowError]. *)
Definition float_of_int (z : Z) : outcome float64 :=
  match of_Z z with
  | Inf _ => Raise OverflowError
  | x => Return x
  end.

Definition to_float (a : num) : outcome float64 :=
  match a with
  | NInt z => float_of_int z
  | NFloat x => Return x
  end.

(** [a / b]: true division always yields a float. *)
Definition num_truediv (a b : num) : outcome float64 :=
  if num_eq b (NInt 0) then Raise ZeroDivisionError
  else match a, b with
       | NInt x, NInt y =>
           match of_Q (inject_Z x / inject_Z y)%Q with
           | Inf _ => Raise OverflowError
           | q => Return q
           end
       | _, _ =>
           x <- to_float a ;;
           y <- to_float b ;;
           Return (fdiv x y)
       end.

(** [a * b] *)
Definition num_mul (a b : num) : outcome num :=
  match a, b with
  | NInt x, NInt y => Return (NInt (x * y))
  | _, _ =>
      x <- to_float a ;;
      y <- to_float b ;;
      Return (NFloat (fmul x y))
  end.

(** [x ** z] for a float base and an [int] exponent. *)
Definition float_pow (x : float64) (z : Z) : outcome float64 :=
  if z =? 0 then Return (of_Z 1)
  else match x with
       | NaN => Return NaN
       | Inf s =>
           if z <? 0 then Return (Fin 0)
           else Return (Inf (s && Z.odd z))
       | Fin n =>
           if n =? 0 then
             if z <? 0 then Raise ZeroDivisionError else Return (Fin 0)
           else match fpow_fin n z with
                | Inf _ => Raise OverflowError
                | r => Return r
                end
       end.

End Py.

(* ================================================================== *)
(** ** The calculator *)

Module LoanCalculator.
Import Binary64 Py.

Open Scope string_scope.
Open Scope Z_scope.

(** Constants for validation. *)
Definition MAX_INTEREST_RATE : num := NFloat (of_Z 1).
Definition MAX_PAYMENT : num := NInt 1000000000.
Definition MAX_PERIODS : Z := 600.
Definition MIN_PERIODS : Z := 1.

Definition _validate_payment (payment : pyval) : outcome unit :=
  match as_num payment with
  | None => Raise (ValueError "Payment must be a number")
  | Some p =>
      if num_le p (NInt 0) then
        Raise (ValueError "Payment must be positive")
      else if num_gt p MAX_PAYMENT then
        Raise (ValueError "Payment cannot exceed $1,000,000,000.00")
      else Return tt
  end.

Definition _validate_interest_rate (rate : pyval) : outcome unit :=
  match as_num rate with
  | None => Raise (ValueError "Interest rate must be a number")
  | Some r =>
      if num_lt r (NInt 0) then
        Raise (ValueError "Interest rate cannot be negative")
      else if num_gt r MAX_INTEREST_RATE then
        Raise (ValueError "Interest rate cannot exceed 100.0%")
      else Return tt
  end.

Definition _validate_periods (periods : pyval) : outcome unit :=
  match as_int periods with
  | None => Raise (ValueError "Periods must be an integer")
  | Some n =>
      if n <? MIN_PERIODS then
        Raise (ValueError "Periods must be at least 1")
      else if n >? MAX_PERIODS then
        Raise (ValueError "Periods cannot exceed 600")
      else Return tt
  end.

Definition allowed_frequencies : list Z := [1; 2; 4; 12; 52; 365].

Definition _validate_periods_per_year (periods_per_year : pyval) : outcome unit :=
  match as_int periods_per_year with
  | None => Raise (ValueError "Periods per year must be an integer")
  | Some f =>
      if negb (existsb (Z.eqb f) allowed_frequencies) then
        Raise (ValueError "Periods per year must be 1, 2, 4, 12, 52, or 365")
      else Return tt
  end.

(** What [_validate_payment] lets through, read off its two comparisons:
    a NaN fails neither of them. *)
Definition payment_accepted (x : num) : Prop :=
  match x with
  | NInt z => 0 < z <= 1000000000
  | NFloat (Fin n) => 0 < n <= 1000000000 * units
  | NFloat NaN => True
  | NFloat (Inf _) => False
  end.

(** What [_validate_interest_rate] lets through. *)
Definition rate_accepted (x : num) : Prop :=
  match x with
  | NInt z => 0 <= z <= 1
  | NFloat (Fin n) => 0 <= n <= units
  | NFloat NaN => True
  | NFloat (Inf _) => False
  end.

Definition is_nan (x : num) : Prop := x = NFloat NaN.

(** The four validator calls, in source order. *)
Definition validate_inputs (payment annual_rate periods periods_per_year : pyval)
  : outcome unit :=
  _validate_payment payment ;;;
  _validate_interest_rate annual_rate ;;;
  _validate_periods periods ;;;
  _validate_periods_per_year periods_per_year.

(** Operand coercions of the arithmetic part.  After validation the
    arguments are numbers; on anything else Python's operators raise
    [TypeError]. *)
Definition operand (v : pyval) : outcome num :=
  match as_num v with
  | Some x => Return x
  | None => Raise TypeError
  end.

Definition int_operand (v : pyval) : outcome Z :=
  match as_int v with
  | Some z => Return z
  | None => Raise TypeError
  end.

(** Line 47: [periodic_rate = annual_rate / periods_per_year]. *)
Definition periodic_rate_of (annual_rate periods_per_year : pyval) : outcome float64 :=
  r <- operand annual_rate ;;
  f <- operand periods_per_year ;;
  num_truediv r f.

(** Line 51: [payment * periods]. *)
Definition undiscounted_sum (payment periods : pyval) : outcome pyval :=
  p <- operand payment ;;
  n <- operand periods ;;
  pn <- num_mul p n ;;
  Return (of_num pn).

(** Line 55:
    [discount_factor = (2 - (1 + periodic_rate) ** -periods) / periodic_rate]. *)
Definition discount_factor_of (periodic_rate : float64) (periods : pyval)
  : outcome float64 :=
  n <- int_operand periods ;;
  one <- float_of_int 1 ;;
  two <- float_of_int 2 ;;
  q <- float_pow (fadd one periodic_rate) (- n) ;;
  num_truediv (NFloat (fsub two q)) (NFloat periodic_rate).

(** Lines 47-58 of the source: everything after the validator calls. *)
Definition present_value_body (payment annual_rate periods periods_per_year : pyval)
  : outcome pyval :=
  periodic_rate <- periodic_rate_of annual_rate periods_per_year ;;
  if num_eq (NFloat periodic_rate) (NInt 0) then
    undiscounted_sum payment periods
  else
    discount_factor <- discount_factor_of periodic_rate periods ;;
    p <- operand payment ;;
    present_value <- num_mul p (NFloat discount_factor) ;;
    match present_value with
    | NFloat x => Return (PyFloat (round2 x))
    | NInt z => Return (PyInt z)
    end.

Definition calculate_present_value
  (payment annual_rate periods periods_per_year : pyval) : outcome pyval :=
  validate_inputs payment annual_rate periods periods_per_year ;;;
  present_value_body payment annual_rate periods periods_per_year.

End LoanCalculator.

(* ================================================================== *)
(** ** The specification's vocabulary *)

Module Spec.
Import Binary64 Py LoanCalculator.

Open Scope string_scope.
Open Scope Z_scope.

(** The error taxonomy of the specification. *)
Inductive failure_kind : Type :=
| InvalidPayment
| InvalidRate
| InvalidPeriods
| InvalidFrequency.

(** The code raises [ValueError] throughout; its messages are sorted into
    the taxonomy by the input they name, the way the repository's tests
    match them. *)
Definition failure_kind_of (e : exn) : option failure_kind :=
  match e with
  | ValueError msg =>
      if prefix "Payment" msg then Some InvalidPayment
      else if prefix "Interest rate" msg then Some InvalidRate
      else if prefix "Periods per year" msg then Some InvalidFrequency
      else if prefix "Periods" msg then Some InvalidPeriods
      else None
  | _ => None
  end.

Definition fails_with (k : failure_kind) (o : outcome pyval) : Prop :=
  exists e, o = Raise e /\ failure_kind_of e = Some k.

Definition succeeds (o : outcome pyval) : Prop :=
  exists v, o = Return v.

(** The data-model table: the domain of each input. *)
Definition payment_in_domain (v : pyval) : bool :=
  match as_num v with
  | Some x => num_gt x (NInt 0) && num_le x MAX_PAYMENT
  | None => false
  end.

Definition rate_in_domain (v : pyval) : bool :=
  match as_num v with
  | Some x => num_ge x (NInt 0) && num_le x MAX_INTEREST_RATE
  | None => false
  end.

Definition periods_in_domain (v : pyval) : bool :=
  match as_int v with
  | Some n => (MIN_PERIODS <=? n) && (n <=? MAX_PERIODS)
  | None => false
  end.

Definition frequency_in_domain (v : pyval) : bool :=
  match as_int v with
  | Some f => existsb (Z.eqb f) allowed_frequencies
  | None => false
  end.

Definition in_domain (payment annual_rate periods periods_per_year : pyval) : bool :=
  payment_in_domain payment && rate_in_domain annual_rate
  && periods_in_domain periods && frequency_in_domain periods_per_year.



(** The documented annuity formula over exact numbers:
    [Payment * (1 - (1 + periodicRate)^(-Periods)) / periodicRate]. *)
Definition documented_formula (payment periodic_rate : Q) (periods : Z) : Q :=
  (payment * (1 - Qpower (1 + periodic_rate) (- periods)) / periodic_rate)%Q.

(** Rounding an exact amount to two decimal places. *)
Definition round_cents (q : Q) : Q :=
  rne_div (Qnum q * 100) (Zpos (Qden q)) # 100.

(** The float [x] is finite and lies within [tol] of [target]. *)
Definition within (tol : Q) (x : float64) (target : Q) : Prop :=
  match x with
  | Fin n => (Qabs (to_Q n - target) <= tol)%Q
  | _ => False
  end.

(** Python's [==] on the values that occur here. *)
Definition py_eq (a b : pyval) : bool :=
  match as_num a, as_num b with
  | Some x, Some y => num_eq x y
  | None, None =>
      match a, b with
      | PyNone, PyNone => true
      | PyStr s, PyStr t => String.eqb s t
      | _, _ => false
      end
  | _, _ => false
  end.

(** Python's [v > 0] and [v >= 0] on a returned value. *)
Definition positive_value (v : pyval) : Prop :=
  match as_num v with
  | Some x => num_gt x (NInt 0) = true
  | None => False
  end.

Definition nonnegative_value (v : pyval) : Prop :=
  match as_num v with
  | Some x => num_ge x (NInt 0) = true
  | None => False
  end.

(** [round(v, 2)] on a returned value; an [int] rounds to itself. *)
Definition py_round2 (v : pyval) : pyval :=
  match v with
  | PyFloat x => PyFloat (round2 x)
  | _ => v
  end.

(** The zero-rate branch is taken: the periodic rate compares equal
    to 0. *)
Definition zero_rate (annual_rate periods_per_year : pyval) : Prop :=
  exists pr, periodic_rate_of annual_rate periods_per_year = Return pr
             /\ num_eq (NFloat pr) (NInt 0) = true.

(** The exact amount a value stands for, when it is a finite number. *)
Definition value_of (v : pyval) : option Q :=
  match v with
  | PyBool b => Some (if b then 1 else 0)%Q
  | PyInt z => Some (inject_Z z)
  | PyFloat (Fin w) => Some (to_Q w)
  | _ => None
  end.


End Spec.

(* ================================================================== *)
(** ** Vocabulary for the observable behaviour of the calculator *)

Module Observed.
Import Binary64 Py LoanCalculator.

Open Scope string_scope.
Open Scope Z_scope.

(** The messages of the eleven [raise ValueError] statements of the four
    validators, in source order. *)
Definition validation_messages : list string :=
  [ "Payment must be a number";
    "Payment must be positive";
    "Payment cannot exceed $1,000,000,000.00";
    "Interest rate must be a number";
    "Interest rate cannot be negative";
    "Interest rate cannot exceed 100.0%";
    "Periods must be an integer";
    "Periods must be at least 1";
    "Periods cannot exceed 600";
    "Periods per year must be an integer";
    "Periods per year must be 1, 2, 4, 12, 52, or 365" ].

(** A [ValueError] carrying one of the validators' messages. *)
Definition documented_error (e : exn) : Prop :=
  exists msg, e = ValueError msg /\ In msg validation_messages.

(** A number as the float it is compared as. *)
Definition float_image (x : num) : float64 :=
  match x with
  | NInt z => Fin (z * units)
  | NFloat f => f
  end.

(** Python's [v <= v'] on two returned values. *)
Definition result_le (v v' : pyval) : Prop :=
  match as_num v, as_num v' with
  | Some x, Some y => num_le x y = true
  | _, _ => False
  end.

End Observed.

(* ================================================================== *)
(** ** The command-line program *)

(** [main] reads three lines from standard input, calls the calculator
    with the default frequency and prints three amounts or one error
    line.  The console is threaded through as state; an exception ends
    the [try] block and is handed to the matching [except] clause. *)

Module Main.
Import Binary64 Py LoanCalculator.

Open Scope string_scope.
Open Scope Z_scope.

(** What can be raised inside [main]: the exceptions of the calculator and
    of the arithmetic, and the [EOFError] of [input]. *)
Inductive raised : Type :=
| Exn (e : exn)
| EOFError.

(** The lines still to be read from standard input, and what has been
    written to standard output, one entry per [print] or prompt, oldest
    first. *)
Record console : Type := Console { stdin : list string; stdout : list string }.

Definition io (A : Type) : Type := console -> (A + raised) * console.

Definition ret {A : Type} (a : A) : io A := fun c => (inl a, c).

Definition throw {A : Type} (r : raised) : io A := fun c => (inr r, c).

Definition io_bind {A B : Type} (m : io A) (k : A -> io B) : io B :=
  fun c =>
    match m c with
    | (inl a, c') => k a c'
    | (inr r, c') => (inr r, c')
    end.

Notation "x <~ m ;; k" := (io_bind m (fun x => k))
  (at level 61, m at next level, right associativity).
Notation "m ;;~ k" := (io_bind m (fun _ => k))
  (at level 61, right associativity).

Definition lift {A : Type} (m : outcome A) : io A :=
  match m with
  | Return a => ret a
  | Raise e => throw (Exn e)
  end.

(** [try: body except ...: handler] *)
Definition try_except {A : Type} (body : io A) (handler : raised -> io A) : io A :=
  fun c =>
    match body c with
    | (inl a, c') => (inl a, c')
    | (inr r, c') => handler r c'
    end.

Definition newline : string := String (Ascii.ascii_of_nat 10) EmptyString.

(** What [print(s)] writes. *)
Definition line (s : string) : string := s ++ newline.

(** [print(s)] *)
Definition print (s : string) : io unit :=
  fun c => (inl tt, Console (stdin c) (stdout c ++ [line s])%list).

(** [input(prompt)]: the prompt is written, one line is read; at the end
    of the input [EOFError] is raised. *)
Definition input (prompt : string) : io string :=
  fun c =>
    let out := (stdout c ++ [prompt])%list in
    match stdin c with
    | line :: rest => (inl line, Console rest out)
    | [] => (inr EOFError, Console [] out)
    end.

(** [s * n] on a string *)
Fixpoint repeat_string (s : string) (n : nat) : string :=
  match n with
  | O => EmptyString
  | S n' => s ++ repeat_string s n'
  end.

(** [a - b] *)
Definition num_sub (a b : num) : outcome num :=
  match a, b with
  | NInt x, NInt y => Return (NInt (x - y))
  | _, _ =>
      x <- to_float a ;;
      y <- to_float b ;;
      Return (NFloat (fsub x y))
  end.

(** [isinstance(e, ValueError)] *)
Definition is_value_error (r : raised) : bool :=
  match r with
  | Exn (ValueError _) => true
  | _ => false
  end.

Section Program.

(** The builtins [main] relies on.  [float(s)] and [int(s)] on a string
    return the number or raise a [ValueError], given here by its message;
    [format(x, ",.2f")] turns a float into text; [str(e)] of an exception
    raised by the interpreter is its message. *)
Variable float_of_string : string -> float64 + string.
Variable int_of_string : string -> Z + string.
Variable format_money : float64 -> string.
Variable builtin_message : exn -> string.

Definition py_float (s : string) : io float64 :=
  match float_of_string s with
  | inl x => ret x
  | inr msg => throw (Exn (ValueError msg))
  end.

Definition py_int (s : string) : io Z :=
  match int_of_string s with
  | inl z => ret z
  | inr msg => throw (Exn (ValueError msg))
  end.

(** [str(e)] *)
Definition str (r : raised) : string :=
  match r with
  | Exn (ValueError msg) => msg
  | Exn e => builtin_message e
  | EOFError => "EOF when reading a line"
  end.

(** [f"{v:,.2f}"]: an [int] is converted to a float first. *)
Definition money (v : num) : io string :=
  x <~ lift (to_float v) ;;
  ret (format_money x).

(** Lines 108-120: the body of the [try] statement. *)
Definition main_body : io unit :=
  s1 <~ input "Enter monthly payment amount: $" ;;
  payment <~ py_float s1 ;;
  s2 <~ input "Enter annual interest rate (as %, e.g., 5.5): " ;;
  pct <~ py_float s2 ;;
  annual_rate <~ lift (num_truediv (NFloat pct) (NInt 100)) ;;
  s3 <~ input "Enter loan term in years: " ;;
  years <~ py_int s3 ;;
  let periods := years * 12 in
  pv <~ lift (calculate_present_value
                (PyFloat payment) (PyFloat annual_rate) (PyInt periods) (PyInt 12)) ;;
  pvn <~ lift (operand pv) ;;
  t1 <~ money pvn ;;
  print (newline ++ "Present Value of Loan: $" ++ t1) ;;~
  total <~ lift (num_mul (NFloat payment) (NInt periods)) ;;
  t2 <~ money total ;;
  print ("Total Amount Paid: $" ++ t2) ;;~
  total' <~ lift (num_mul (NFloat payment) (NInt periods)) ;;
  interest <~ lift (num_sub total' pvn) ;;
  t3 <~ money interest ;;
  print ("Total Interest Paid: $" ++ t3).

(** Lines 122-125: the two [except] clauses, tried in order. *)
Definition main_handler (r : raised) : io unit :=
  if is_value_error r then print (newline ++ "Error: " ++ str r)
  else print (newline ++ "Unexpected error: " ++ str r).

Definition main : io unit :=
  print "Loan Present Value Calculator" ;;~
  print (repeat_string "-" 40) ;;~
  try_except main_body main_handler.

End Program.

(** What [main] writes before the [try] block and while it reads. *)
Definition banner : list string :=
  [ line "Loan Present Value Calculator";
    line (repeat_string "-" 40) ].

Definition prompts : list string :=
  [ "Enter monthly payment amount: $";
    "Enter annual interest rate (as %, e.g., 5.5): ";
    "Enter loan term in years: " ].

(** The three lines of a successful run, for the value [pv] returned by the
    calculator and the product [total] of payment and periods. *)
Definition report (format_money : float64 -> string) (pv total : float64)
  : list string :=
  [ line (newline ++ "Present Value of Loan: $" ++ format_money pv);
    line ("Total Amount Paid: $" ++ format_money total);
    line ("Total Interest Paid: $" ++ format_money (fsub total pv)) ].

(** The line of the first [except] clause. *)
Definition error_line (msg : string) : string :=
  line (newline ++ "Error: " ++ msg).

(** The annual rate [main] passes on for a percentage [pct]. *)
Definition rate_of_percentage (pct : float64) : float64 :=
  fdiv pct (Fin (100 * units)).

(** The entry of the output that the second [except] clause writes. *)
Definition unexpected (entry : string) : bool :=
  String.prefix (newline ++ "Unexpected error: ") entry.

End Main.

(* ================================================================== *)
(** ** Facts about the rounding operator *)

Module Binary64Facts.
Import Binary64.

(** *** Division rounded to the nearest integer *)

Lemma rne_div_bounds a b : 0 < b -> a / b <= rne_div a b <= a / b + 1.
Proof.
  intros Hb. unfold rne_div.
  destruct (2 * (a mod b) ?= b); [destruct (Z.even (a / b))|..]; lia.
Qed.

Lemma rne_div_scale a b c : 0 < b -> 0 < c -> rne_div (a * c) (b * c) = rne_div a b.
Proof.
  intros Hb Hc. unfold rne_div.
  rewrite Z.div_mul_cancel_r by lia.
  rewrite Z.mul_mod_distr_r by lia.
  assert (E : (2 * (a mod b * c) ?= b * c) = (2 * (a mod b) ?= b)).
  { destruct (Z.compare_spec (2 * (a mod b)) b);
      [apply Z.compare_eq_iff | apply Z.compare_lt_iff | apply Z.compare_gt_iff]; nia. }
  rewrite E. reflexivity.
Qed.

Lemma rne_div_mono_num a a' b : 0 < b -> a <= a' -> rne_div a b <= rne_div a' b.
Proof.
  intros Hb Ha.
  assert (Hq : a / b <= a' / b) by (apply Z.div_le_mono; lia).
  destruct (Z.eq_dec (a / b) (a' / b)) as [E|NE].
  - assert (Hr : a mod b <= a' mod b).
    { pose proof (Z.div_mod a b ltac:(lia)). pose proof (Z.div_mod a' b ltac:(lia)).
      rewrite E in *. nia. }
    unfold rne_div. rewrite E.
    destruct (Z.compare_spec (2 * (a mod b)) b);
    destruct (Z.compare_spec (2 * (a' mod b)) b);
    destruct (Z.even (a' / b)); lia.
  - pose proof (rne_div_bounds a b Hb). pose proof (rne_div_bounds a' b Hb). lia.
Qed.

Lemma rne_div_mono a b a' b' :
  0 < b -> 0 < b' -> a * b' <= a' * b -> rne_div a b <= rne_div a' b'.
Proof.
  intros Hb Hb' H.
  rewrite <- (rne_div_scale a b b') by lia.
  rewrite <- (rne_div_scale a' b' b) by lia.
  replace (b' * b) with (b * b') by ring.
  apply rne_div_mono_num; nia.
Qed.

Lemma div_mono_frac a b a' b' :
  0 < b -> 0 < b' -> a * b' <= a' * b -> a / b <= a' / b'.
Proof.
  intros Hb Hb' H.
  rewrite <- (Z.div_mul_cancel_r a b b') by lia.
  rewrite <- (Z.div_mul_cancel_r a' b' b) by lia.
  replace (b' * b) with (b * b') by ring.
  apply Z.div_le_mono; nia.
Qed.

(** *** Rounding to the grid is monotone *)

Lemma round_grid_nonneg a b : 0 <= a -> 0 < b -> 0 <= round_grid a b.
Proof.
  intros Ha Hb. unfold round_grid.
  set (k := Z.max 0 _).
  assert (0 < 2 ^ k) by (apply Z.pow_pos_nonneg; lia).
  pose proof (rne_div_bounds a (b * 2 ^ k) ltac:(nia)).
  assert (0 <= a / (b * 2 ^ k)) by (apply Z.div_pos; nia).
  nia.
Qed.

(** A rounded value stays inside the closed binade it was rounded in. *)
Lemma grid_upper a b :
  0 <= a -> 0 < b ->
  let k := Z.max 0 (Z.log2 (a / b) - 52) in
  round_grid a b <= 2 ^ (k + 53).
Proof.
  intros Ha Hb k. unfold round_grid. fold k.
  assert (Hk : 0 <= k) by lia.
  assert (H2k : 0 < 2 ^ k) by (apply Z.pow_pos_nonneg; lia).
  assert (Hy : a / b < 2 ^ (k + 53)).
  { destruct (Z.eq_dec (a / b) 0) as [E|NE].
    - rewrite E. apply Z.pow_pos_nonneg; lia.
    - assert (0 < a / b) by (pose proof (Z.div_pos a b Ha Hb); lia).
      pose proof (Z.log2_spec (a / b) H) as [_ Hlt].
      eapply Z.lt_le_trans; [exact Hlt|].
      apply Z.pow_le_mono_r; lia. }
  assert (Hq : a / (b * 2 ^ k) < 2 ^ 53).
  { rewrite <- Z.div_div by lia.
    apply Z.div_lt_upper_bound; [lia|].
    rewrite <- Z.pow_add_r by lia. exact Hy. }
  pose proof (rne_div_bounds a (b * 2 ^ k) ltac:(nia)).
  rewrite Z.pow_add_r by lia.
  nia.
Qed.

Lemma grid_lower a b :
  0 <= a -> 0 < b ->
  let k := Z.max 0 (Z.log2 (a / b) - 52) in
  0 < k -> 2 ^ (k + 52) <= round_grid a b.
Proof.
  intros Ha Hb k Hk. unfold round_grid. fold k.
  assert (H2k : 0 < 2 ^ k) by (apply Z.pow_pos_nonneg; lia).
  assert (Hl : Z.log2 (a / b) = k + 52) by lia.
  assert (Hy : 0 < a / b).
  { destruct (Z_lt_le_dec 0 (a / b)); auto.
    rewrite (Z.log2_nonpos (a / b)) in Hl by lia. lia. }
  pose proof (Z.log2_spec (a / b) Hy) as [Hle _]. rewrite Hl in Hle.
  assert (Hq : 2 ^ 52 <= a / (b * 2 ^ k)).
  { rewrite <- Z.div_div by lia.
    apply Z.div_le_lower_bound; [lia|].
    rewrite Z.mul_comm, <- Z.pow_add_r by lia.
    replace (52 + k) with (k + 52) by ring. exact Hle. }
  pose proof (rne_div_bounds a (b * 2 ^ k) ltac:(nia)).
  rewrite Z.pow_add_r by lia. nia.
Qed.

Lemma round_grid_mono a b a' b' :
  0 <= a -> 0 < b -> 0 < b' -> a * b' <= a' * b ->
  round_grid a b <= round_grid a' b'.
Proof.
  intros Ha Hb Hb' H.
  assert (Ha' : 0 <= a') by nia.
  pose proof (div_mono_frac a b a' b' Hb Hb' H) as Hy.
  assert (Hy0 : 0 <= a / b) by (apply Z.div_pos; lia).
  pose proof (Z.log2_le_mono _ _ Hy) as Hlog.
  pose proof (grid_upper a b Ha Hb) as Hup.
  pose proof (grid_lower a' b' Ha' Hb') as Hlo.
  cbv zeta in Hup, Hlo.
  remember (Z.max 0 (Z.log2 (a / b) - 52)) as k eqn:Ek.
  remember (Z.max 0 (Z.log2 (a' / b') - 52)) as k' eqn:Ek'.
  assert (Hkk : k <= k') by lia.
  destruct (Z.eq_dec k k') as [E|NE].
  - unfold round_grid. rewrite <- Ek, <- Ek', <- E.
    assert (H2k : 0 < 2 ^ k) by (apply Z.pow_pos_nonneg; lia).
    apply Z.mul_le_mono_nonneg_r; [lia|].
    apply rne_div_mono; nia.
  - assert (Hlt : 0 < k') by lia.
    specialize (Hlo Hlt).
    eapply Z.le_trans; [exact Hup|].
    eapply Z.le_trans; [|exact Hlo].
    apply Z.pow_le_mono_r; lia.
Qed.

Lemma nearest_mono a b a' b' :
  0 < b -> 0 < b' -> a * b' <= a' * b -> nearest a b <= nearest a' b'.
Proof.
  intros Hb Hb' H. unfold nearest.
  destruct (Z.ltb_spec a 0), (Z.ltb_spec a' 0).
  - apply Z.opp_le_mono. rewrite !Z.opp_involutive.
    apply round_grid_mono; nia.
  - pose proof (round_grid_nonneg (- a) b). pose proof (round_grid_nonneg a' b'). lia.
  - nia.
  - apply round_grid_mono; nia.
Qed.

Lemma rnd_mono a b a' b' :
  0 < b -> 0 < b' -> a * b' <= a' * b -> fle (rnd a b) (rnd a' b').
Proof.
  intros Hb Hb' H. pose proof (nearest_mono a b a' b' Hb Hb' H) as Hn.
  unfold rnd, fle.
  assert (0 < top) by (apply Z.pow_pos_nonneg; cbv; congruence).
  destruct (Z.leb_spec top (Z.abs (nearest a b))), (Z.leb_spec top (Z.abs (nearest a' b')));
  destruct (Z.ltb_spec (nearest a b) 0), (Z.ltb_spec (nearest a' b') 0); simpl; try lia; auto.
  all: try (destruct (Z.compare_spec (nearest a b) (nearest a' b')); auto; lia).

Qed.

(** *** Rounding a rational *)

Lemma units_pos_lt : 0 < units.
Proof. unfold units. lia. Qed.

Lemma of_Q_mono (q1 q2 : Q) : (q1 <= q2)%Q -> fle (of_Q q1) (of_Q q2).
Proof.
  intros H. unfold of_Q. unfold Qle in H.
  pose proof units_pos_lt.
  apply rnd_mono; try lia. nia.
Qed.

Lemma rnd_not_nan a b : rnd a b <> NaN.
Proof. unfold rnd. destruct (_ <=? _); discriminate. Qed.

Lemma of_Q_between (lo hi q : Q) (a b : Z) :
  of_Q lo = Fin a -> of_Q hi = Fin b -> (lo <= q)%Q -> (q <= hi)%Q ->
  fin_between a b (of_Q q).
Proof.
  intros Ea Eb Hlo Hhi.
  pose proof (of_Q_mono _ _ Hlo) as H1. pose proof (of_Q_mono _ _ Hhi) as H2.
  rewrite Ea in H1. rewrite Eb in H2.
  unfold fle, fcompare in H1, H2.
  destruct (of_Q q) as [|s|m] eqn:E.
  - exfalso; exact (rnd_not_nan _ _ E).
  - destruct s; contradiction.
  - exists m. split; [reflexivity|].
    destruct (Z.compare_spec a m); try contradiction;
    destruct (Z.compare_spec m b); try contradiction; lia.
Qed.

Lemma of_Q_at_least (lo q : Q) (a : Z) :
  of_Q lo = Fin a -> (lo <= q)%Q -> at_least a (of_Q q).
Proof.
  intros Ea Hlo.
  pose proof (of_Q_mono _ _ Hlo) as H1. rewrite Ea in H1.
  unfold fle, fcompare in H1. unfold at_least.
  destruct (of_Q q) as [|s|m] eqn:E.
  - exact (rnd_not_nan _ _ E).
  - destruct s; [contradiction|reflexivity].
  - destruct (Z.compare_spec a m); try contradiction; lia.
Qed.

Lemma to_Q_eq n : (to_Q n == n # units_pos)%Q.
Proof. unfold to_Q. apply Qred_correct. Qed.

Lemma to_Q_le a b : a <= b -> (to_Q a <= to_Q b)%Q.
Proof.
  intros H. rewrite !to_Q_eq. unfold Qle; cbn [Qnum Qden]. nia.
Qed.

Lemma to_Q_lt a b : a < b -> (to_Q a < to_Q b)%Q.
Proof.
  intros H. rewrite !to_Q_eq. unfold Qlt; cbn [Qnum Qden]. nia.
Qed.

Lemma to_Q_0 : (to_Q 0 == 0)%Q.
Proof. rewrite to_Q_eq. reflexivity. Qed.

Lemma to_Q_units : (to_Q units == 1)%Q.
Proof. rewrite to_Q_eq. unfold Qeq, units; cbn [Qnum Qden]. lia. Qed.

Lemma to_Q_scale k : (to_Q (k * units) == inject_Z k)%Q.
Proof. rewrite to_Q_eq. unfold Qeq, units; cbn [Qnum Qden inject_Z]. lia. Qed.

Lemma of_Q_0 : of_Q 0 = Fin 0.
Proof. reflexivity. Qed.
Lemma of_Q_1 : of_Q 1 = Fin units.
Proof. vm_compute. reflexivity. Qed.
Lemma of_Q_2 : of_Q 2 = Fin (2 * units).
Proof. vm_compute. reflexivity. Qed.
Lemma of_Q_tiny : of_Q (1 # units_pos) = Fin 1.
Proof. vm_compute. reflexivity. Qed.

(** *** Values of the grid round to themselves *)

Lemma rne_div_exact m c : 0 < c -> rne_div (m * c) c = m.
Proof.
  intros Hc. unfold rne_div.
  rewrite Z.div_mul by lia. rewrite Z.mod_mul by lia.
  replace (2 * 0) with 0 by ring.
  destruct (Z.compare_spec 0 c); lia.
Qed.

Lemma round_grid_exact m j :
  0 <= m < 2 ^ 53 -> 0 <= j -> round_grid (m * 2 ^ j) 1 = m * 2 ^ j.
Proof.
  intros Hm Hj.
  assert (H2j : 0 < 2 ^ j) by (apply Z.pow_pos_nonneg; lia).
  destruct (Z.eq_dec m 0) as [->|Hm0]; [reflexivity|].
  unfold round_grid.
  rewrite Z.div_1_r.
  set (k := Z.max 0 (Z.log2 (m * 2 ^ j) - 52)).
  assert (Hlog : Z.log2 (m * 2 ^ j) = j + Z.log2 m).
  { apply Z.log2_mul_pow2; lia. }
  assert (Hlm : Z.log2 m < 53).
  { apply Z.log2_lt_pow2; lia. }
  assert (Hk : 0 <= k <= j) by (unfold k; lia).
  assert (H2k : 0 < 2 ^ k) by (apply Z.pow_pos_nonneg; lia).
  rewrite Z.mul_1_l.
  replace (m * 2 ^ j) with ((m * 2 ^ (j - k)) * 2 ^ k).
  - rewrite rne_div_exact by lia. reflexivity.
  - rewrite <- Z.mul_assoc, <- Z.pow_add_r by lia. f_equal. f_equal. lia.
Qed.

Lemma top_pos : 0 < top.
Proof. apply Z.pow_pos_nonneg; cbv; congruence. Qed.

Lemma units_pow : units = 2 ^ 1074.
Proof. unfold units, units_pos. rewrite Pos2Z.inj_pow. reflexivity. Qed.

Lemma of_Z_exact z : 0 <= z < 2 ^ 53 -> of_Z z = Fin (z * units).
Proof.
  intros Hz. unfold of_Z, of_Q, rnd, nearest. simpl Qnum. simpl Qden.
  pose proof units_pos_lt.
  destruct (Z.ltb_spec (z * units) 0); [nia|].
  rewrite units_pow. rewrite round_grid_exact by lia.
  destruct (Z.leb_spec top (Z.abs (z * 2 ^ 1074))); [|reflexivity].
  exfalso. unfold top, unit_exp in *.
  rewrite Z.abs_eq in * by nia.
  assert (z * 2 ^ 1074 < 2 ^ 53 * 2 ^ 1074) by (apply Z.mul_lt_mono_pos_r; [apply Z.pow_pos_nonneg|]; lia).
  rewrite <- Z.pow_add_r in * by lia.
  assert (2 ^ (53 + 1074) <= 2 ^ (1024 + 1074)) by (apply Z.pow_le_mono_r; lia).
  lia.
Qed.

(** *** Ranges of the intermediate values of the discount factor *)

Lemma fin_between_weaken lo hi lo' hi' x :
  fin_between lo hi x -> lo' <= lo -> hi <= hi' -> fin_between lo' hi' x.
Proof. intros (m & -> & H) ? ?. exists m. split; [reflexivity|lia]. Qed.

Lemma fin_between_at_least lo hi x : fin_between lo hi x -> at_least lo x.
Proof. intros (m & -> & H). simpl. lia. Qed.

Lemma at_least_weaken lo lo' x : at_least lo x -> lo' <= lo -> at_least lo' x.
Proof. destruct x; simpl; auto; lia. Qed.

Lemma to_Q_opp n : (to_Q (- n) == - to_Q n)%Q.
Proof. rewrite !to_Q_eq. unfold Qeq, Qopp; cbn [Qnum Qden]. lia. Qed.

Lemma to_Q_nonneg n : 0 <= n -> (0 <= to_Q n)%Q.
Proof. intros H. rewrite <- to_Q_0. apply to_Q_le; exact H. Qed.

Lemma to_Q_pos n : 0 < n -> (0 < to_Q n)%Q.
Proof. intros H. rewrite <- to_Q_0. apply to_Q_lt; exact H. Qed.

Lemma to_Q_le_1 n : n <= units -> (to_Q n <= 1)%Q.
Proof. intros H. rewrite <- to_Q_units. apply to_Q_le; exact H. Qed.

Lemma to_Q_ge_1 n : units <= n -> (1 <= to_Q n)%Q.
Proof. intros H. rewrite <- to_Q_units. apply to_Q_le; exact H. Qed.

Lemma to_Q_2units : (to_Q (2 * units) == 2)%Q.
Proof. apply (to_Q_scale 2). Qed.

(** 1 + periodic_rate *)
Lemma base_range m :
  0 <= m <= units ->
  fin_between units (2 * units) (fadd (Fin units) (Fin m)).
Proof.
  intros Hm. unfold fadd.
  pose proof (to_Q_nonneg m ltac:(lia)). pose proof (to_Q_le_1 m ltac:(lia)).
  pose proof to_Q_units.
  apply (of_Q_between 1 2); [exact of_Q_1|exact of_Q_2|lra|lra].
Qed.

(** base ** -n *)
Lemma pow_range b n :
  units <= b -> 1 <= n ->
  fin_between 0 units (fpow_fin b (- n)).
Proof.
  intros Hb Hn. unfold fpow_fin.
  pose proof (to_Q_ge_1 b Hb) as H1.
  pose proof (Qpower_1_le (to_Q b) n H1 ltac:(lia)) as Hp.
  assert (Hinv : (0 <= / to_Q b ^ n <= 1)%Q).
  { split.
    - apply Qlt_le_weak, Qinv_lt_0_compat. lra.
    - apply Qle_shift_inv_r; lra. }
  apply (of_Q_between 0 1); [exact of_Q_0|exact of_Q_1|..];
    rewrite Qpower_opp; lra.
Qed.

(** 2 - q *)
Lemma numerator_range q :
  0 <= q <= units ->
  fin_between units (2 * units) (fsub (Fin (2 * units)) (Fin q)).
Proof.
  intros Hq. unfold fsub, fneg, fadd.
  pose proof (to_Q_nonneg q ltac:(lia)). pose proof (to_Q_le_1 q ltac:(lia)).
  pose proof to_Q_2units. pose proof (to_Q_opp q).
  apply (of_Q_between 1 2); [exact of_Q_1|exact of_Q_2|lra|lra].
Qed.

(** s / periodic_rate *)
Lemma quotient_range s m :
  units <= s -> 0 < m <= units ->
  at_least units (fdiv (Fin s) (Fin m)).
Proof.
  intros Hs Hm. unfold fdiv.
  pose proof (to_Q_ge_1 s Hs). pose proof (to_Q_pos m ltac:(lia)).
  pose proof (to_Q_le_1 m ltac:(lia)).
  apply (of_Q_at_least 1); [exact of_Q_1|].
  apply Qle_shift_div_l; lra.
Qed.

(** payment * discount_factor *)
Lemma product_range p d :
  1 <= p -> at_least 0 d -> at_least 0 (fmul (Fin p) d).
Proof.
  intros Hp Hd. destruct d as [|s|d]; simpl in Hd; try contradiction.
  - subst s. simpl. destruct (Z.eqb_spec p 0); [lia|].
    destruct (Z.ltb_spec p 0); [lia|]. reflexivity.
  - unfold fmul.
    pose proof (to_Q_nonneg p ltac:(lia)). pose proof (to_Q_nonneg d Hd).
    apply (of_Q_at_least 0); [exact of_Q_0|].
    apply Qmult_le_0_compat; assumption.
Qed.

Lemma round2_range x : at_least 0 x -> at_least 0 (round2 x).
Proof.
  destruct x as [|s|n]; simpl; auto. intros Hn.
  pose proof (to_Q_nonneg n Hn) as Hq.
  apply (of_Q_at_least 0); [exact of_Q_0|].
  unfold Qle in *. cbn [Qnum Qden] in *.
  pose proof (rne_div_bounds (Qnum (to_Q n) * 100) (Zpos (Qden (to_Q n))) ltac:(lia)).
  assert (0 <= Qnum (to_Q n) * 100 / Zpos (Qden (to_Q n))) by (apply Z.div_pos; lia).
  lia.
Qed.

(** *** The rounded value is a nearest value of the grid *)





(** *** Doubling commutes with rounding above the subnormal range *)




(** *** The same facts on rationals *)

Lemma fle_antisym a b a' b' :
  fle (rnd a b) (rnd a' b') -> fle (rnd a' b') (rnd a b) -> rnd a b = rnd a' b'.
Proof.
  pose proof (rnd_not_nan a b). pose proof (rnd_not_nan a' b').
  unfold fle, fcompare.
  destruct (rnd a b) as [|s|n], (rnd a' b') as [|s'|n']; try congruence.
  - destruct s, s'; simpl; intros; try contradiction; reflexivity.
  - destruct s; contradiction.
  - destruct s'; contradiction.
  - destruct (Z.compare_spec n n'); destruct (Z.compare_spec n' n);
      intros; try contradiction; try lia; f_equal; lia.
Qed.

Lemma of_Q_Qeq (q1 q2 : Q) : (q1 == q2)%Q -> of_Q q1 = of_Q q2.
Proof.
  intros E. apply fle_antisym; apply of_Q_mono; rewrite E; apply Qle_refl.
Qed.






Lemma of_Q_le_fin (q hi : Q) w b :
  (q <= hi)%Q -> of_Q hi = Fin b -> of_Q q = Fin w -> w <= b.
Proof.
  intros H Eb Ew. pose proof (of_Q_mono q hi H) as M.
  rewrite Eb, Ew in M. unfold fle, fcompare in M.
  destruct (Z.compare_spec w b); try contradiction; lia.
Qed.

(** *** [round2] moves a value by at most a cent *)




(** The operations agree with CPython on the usual test values. *)
Example literal_0_05 :
  dec 5 (-2) = of_Q (3602879701896397 # 72057594037927936)
  /\ fdiv (dec 5 (-2)) (of_Z 12) = of_Q (4803839602528529 # 1152921504606846976).
Proof. split; vm_compute; reflexivity. Qed.

Example sum_0_1_0_2 : fadd (dec 1 (-1)) (dec 2 (-1)) = dec 30000000000000004 (-17).
Proof. vm_compute. reflexivity. Qed.

Example round2_ties_and_neighbours :
  round2 (dec 125 (-3)) = dec 12 (-2)
  /\ round2 (dec 2675 (-3)) = dec 267 (-2)
  /\ round2 (dec 375 (-3)) = dec 38 (-2).
Proof. repeat split; vm_compute; reflexivity. Qed.

Example product_overflows : fmul (dec 1 308) (of_Z 10) = Inf false.
Proof. vm_compute. reflexivity. Qed.

End Binary64Facts.

(* ================================================================== *)
(** ** Facts about the calculator *)

Module CalculatorFacts.
Import Binary64 Py LoanCalculator Spec Binary64Facts.

Lemma float_pow_range b n :
  units <= b -> 1 <= n ->
  exists q, float_pow (Fin b) (- n) = Return q /\ fin_between 0 units q.
Proof.
  intros Hb Hn. pose proof units_pos_lt.
  destruct (pow_range b n Hb Hn) as (q & E & Hq).
  unfold float_pow.
  destruct (Z.eqb_spec (- n) 0); [lia|].
  destruct (Z.eqb_spec b 0); [lia|].
  rewrite E. eexists; split; [reflexivity|]. exists q; auto.
Qed.

(** *** What the validators let through *)

Lemma of_Z_1 : of_Z 1 = Fin units.
Proof. exact of_Q_1. Qed.

Lemma validate_payment_inv v :
  _validate_payment v = Return tt ->
  exists x, as_num v = Some x /\ payment_accepted x.
Proof.
  unfold _validate_payment. destruct (as_num v) as [x|]; [|discriminate].
  intros H. exists x. split; [reflexivity|].
  destruct x as [z|[|s|n]]; cbn [payment_accepted];
    unfold num_le, num_gt, MAX_PAYMENT, num_compare, fcompare in H.
  - destruct (Z.compare_spec z 0); cbv beta iota in H; try discriminate;
    destruct (Z.compare_spec z 1000000000); cbv beta iota in H; try discriminate; lia.
  - exact I.
  - destruct s; discriminate.
  - change (0 * units) with 0 in H.
    destruct (Z.compare_spec n 0); cbv beta iota in H; try discriminate;
    destruct (Z.compare_spec n (1000000000 * units)); cbv beta iota in H; try discriminate; lia.
Qed.

Lemma validate_rate_inv v :
  _validate_interest_rate v = Return tt ->
  exists x, as_num v = Some x /\ rate_accepted x.
Proof.
  unfold _validate_interest_rate. destruct (as_num v) as [x|]; [|discriminate].
  intros H. exists x. split; [reflexivity|].
  unfold MAX_INTEREST_RATE in H. rewrite of_Z_1 in H.
  pose proof units_pos_lt.
  destruct x as [z|[|s|n]]; cbn [rate_accepted];
    unfold num_lt, num_gt, num_compare, fcompare in H.
  - destruct (Z.compare_spec z 0); cbv beta iota in H; try discriminate;
    destruct (Z.compare_spec (z * units) units); cbv beta iota in H; try discriminate; nia.
  - exact I.
  - destruct s; discriminate.
  - change (0 * units) with 0 in H.
    destruct (Z.compare_spec n 0); cbv beta iota in H; try discriminate;
    destruct (Z.compare_spec n units); cbv beta iota in H; try discriminate; lia.
Qed.

Lemma validate_periods_inv v :
  _validate_periods v = Return tt ->
  exists n, as_int v = Some n /\ 1 <= n <= 600.
Proof.
  unfold _validate_periods, MIN_PERIODS, MAX_PERIODS.
  destruct (as_int v) as [n|]; [|discriminate].
  intros H. exists n. split; [reflexivity|].
  destruct (Z.ltb_spec n 1); [discriminate|].
  destruct (Z.gtb_spec n 600); [discriminate|]. lia.
Qed.

Lemma validate_frequency_inv v :
  _validate_periods_per_year v = Return tt ->
  exists f, as_int v = Some f /\ In f allowed_frequencies.
Proof.
  unfold _validate_periods_per_year.
  destruct (as_int v) as [f|]; [|discriminate].
  intros H. exists f. split; [reflexivity|].
  destruct (existsb (Z.eqb f) allowed_frequencies) eqn:E; [|discriminate].
  apply existsb_exists in E. destruct E as (g & Hin & Heq).
  apply Z.eqb_eq in Heq. subst g. exact Hin.
Qed.

Lemma as_int_as_num v z : as_int v = Some z -> as_num v = Some (NInt z).
Proof. destruct v; simpl; try discriminate; intros [= <-]; reflexivity. Qed.

Lemma allowed_range f : In f allowed_frequencies -> 1 <= f <= 365.
Proof. simpl. intuition lia. Qed.

Lemma float_of_int_exact z :
  0 <= z < 2 ^ 53 -> float_of_int z = Return (Fin (z * units)).
Proof. intros H. unfold float_of_int. rewrite of_Z_exact by exact H. reflexivity. Qed.

Lemma inject_Z_le a b : a <= b -> (inject_Z a <= inject_Z b)%Q.
Proof. intros H. unfold Qle; cbn [Qnum Qden inject_Z]. lia. Qed.

Lemma unit_quotient (a b : Q) :
  (0 <= a)%Q -> (a <= 1)%Q -> (1 <= b)%Q -> (0 <= a / b)%Q /\ (a / b <= 1)%Q.
Proof.
  intros Ha Ha1 Hb. split.
  - apply Qle_shift_div_l; lra.
  - apply Qle_shift_div_r; lra.
Qed.

Lemma periodic_rate_spec r f y f' :
  as_num r = Some y -> rate_accepted y ->
  as_int f = Some f' -> In f' allowed_frequencies ->
  exists pr, periodic_rate_of r f = Return pr
             /\ ((pr = NaN /\ is_nan y) \/ fin_between 0 units pr).
Proof.
  intros Er Hy Ef Hf. apply allowed_range in Hf.
  unfold periodic_rate_of, operand. rewrite Er, (as_int_as_num _ _ Ef).
  cbn [bind]. unfold num_truediv. unfold num_eq at 1, num_compare.
  pose proof (inject_Z_le 1 f' ltac:(lia)) as Hf1.
  destruct (Z.compare_spec f' 0); try lia.
  destruct y as [z|[|s|n]]; cbn [rate_accepted] in Hy.
  - pose proof (inject_Z_le 0 z ltac:(lia)). pose proof (inject_Z_le z 1 ltac:(lia)).
    destruct (unit_quotient (inject_Z z) (inject_Z f')) as [Q0 Q1]; try assumption.
    destruct (of_Q_between 0 1 _ _ _ of_Q_0 of_Q_1 Q0 Q1) as (m & E & Hm).
    rewrite E. eexists; split; [reflexivity|]. right. exists m; auto.
  - cbn [to_float bind]. rewrite float_of_int_exact by lia. cbn [bind fdiv].
    eexists; split; [reflexivity|]. left; split; reflexivity.
  - contradiction.
  - cbn [to_float bind]. rewrite float_of_int_exact by lia. cbn [bind].
    eexists; split; [reflexivity|]. right.
    unfold fdiv.
    pose proof (to_Q_nonneg n ltac:(lia)). pose proof (to_Q_le_1 n ltac:(lia)).
    pose proof (to_Q_scale f') as Hf'.
    destruct (unit_quotient (to_Q n) (to_Q (f' * units))) as [Q0 Q1]; try assumption.
    { rewrite Hf'. exact Hf1. }
    exact (of_Q_between 0 1 _ _ _ of_Q_0 of_Q_1 Q0 Q1).
Qed.

Lemma two_pow_53_big : 1000000000 < 2 ^ 53.
Proof. reflexivity. Qed.

(** *** The arithmetic on accepted inputs *)

Lemma to_float_payment x :
  payment_accepted x ->
  exists pf, to_float x = Return pf
             /\ ((pf = NaN /\ is_nan x) \/ exists p, pf = Fin p /\ 1 <= p).
Proof.
  pose proof units_pos_lt. pose proof two_pow_53_big.
  destruct x as [z|[|s|n]]; cbn [payment_accepted to_float]; intros Hx.
  - rewrite float_of_int_exact by lia.
    eexists; split; [reflexivity|]. right. eexists; split; [reflexivity|]. nia.
  - eexists; split; [reflexivity|]. left; split; reflexivity.
  - contradiction.
  - eexists; split; [reflexivity|]. right. eexists; split; [reflexivity|]. lia.
Qed.

Lemma num_eq_zero_fin m : num_eq (NFloat (Fin m)) (NInt 0) = (m =? 0).
Proof.
  unfold num_eq, num_compare, fcompare. change (0 * units) with 0.
  destruct (Z.compare_spec m 0), (Z.eqb_spec m 0); try reflexivity; lia.
Qed.

Lemma discount_factor_spec pr pn n :
  as_int pn = Some n -> 1 <= n ->
  pr = NaN \/ fin_between 1 units pr ->
  exists d, discount_factor_of pr pn = Return d
            /\ ((pr = NaN /\ d = NaN) \/ (pr <> NaN /\ at_least units d)).
Proof.
  intros En Hn Hpr. pose proof units_pos_lt.
  unfold discount_factor_of, int_operand. rewrite En. cbn [bind].
  rewrite (float_of_int_exact 1) by (split; [lia|reflexivity]).
  rewrite (float_of_int_exact 2) by (split; [lia|reflexivity]).
  cbn [bind]. rewrite Z.mul_1_l.
  destruct Hpr as [->|(m & -> & Hm)].
  - cbn [fadd]. unfold float_pow.
    destruct (Z.eqb_spec (- n) 0); [lia|]. cbn [bind fsub fneg fadd].
    unfold num_truediv.
    change (num_eq (NFloat NaN) (NInt 0)) with false.
    cbn [to_float bind fdiv].
    eexists; split; [reflexivity|]. left; split; reflexivity.
  - destruct (base_range m ltac:(lia)) as (b & Eb & Hb). rewrite Eb.
    destruct (float_pow_range b n ltac:(lia) Hn) as (q & Eq & (q' & -> & Hq)).
    rewrite Eq. cbn [bind].
    destruct (numerator_range q' Hq) as (s & Es & Hs). rewrite Es.
    unfold num_truediv. rewrite num_eq_zero_fin.
    destruct (Z.eqb_spec m 0); [lia|]. cbn [to_float bind].
    eexists; split; [reflexivity|]. right. split; [discriminate|].
    apply quotient_range; lia.
Qed.

Lemma positive_value_float x : at_least 1 x -> positive_value (PyFloat x).
Proof.
  unfold positive_value, as_num, num_gt, num_compare, fcompare.
  change (0 * units) with 0.
  destruct x as [|s|n]; cbn [at_least]; intros Hx.
  - contradiction.
  - subst s. reflexivity.
  - destruct (Z.compare_spec n 0); try reflexivity; lia.
Qed.

Lemma nonnegative_value_float x : at_least 0 x -> nonnegative_value (PyFloat x).
Proof.
  unfold nonnegative_value, as_num, num_ge, num_compare, fcompare.
  change (0 * units) with 0.
  destruct x as [|s|n]; cbn [at_least]; intros Hx.
  - contradiction.
  - subst s. reflexivity.
  - destruct (Z.compare_spec n 0); try reflexivity; lia.
Qed.

Lemma positive_nonnegative v : positive_value v -> nonnegative_value v.
Proof.
  unfold positive_value, nonnegative_value, num_gt, num_ge.
  destruct (as_num v) as [x|]; [|auto].
  destruct (num_compare x (NInt 0)) as [[]|]; auto; discriminate.
Qed.

(** payment * periods on the zero-rate branch *)
Lemma undiscounted_sum_spec p pn x n :
  as_num p = Some x -> payment_accepted x ->
  as_int pn = Some n -> 1 <= n <= 600 ->
  exists v, undiscounted_sum p pn = Return v
            /\ (~ is_nan x -> positive_value v).
Proof.
  intros Ep Hx En Hn. pose proof units_pos_lt.
  unfold undiscounted_sum, operand. rewrite Ep, (as_int_as_num _ _ En).
  cbn [bind].
  destruct x as [z|[|s|m]]; cbn [payment_accepted] in Hx.
  - cbn [num_mul bind of_num]. eexists; split; [reflexivity|]. intros _.
    unfold positive_value, as_num, num_gt, num_compare.
    destruct (Z.compare_spec (z * n) 0); try reflexivity; nia.
  - cbn [num_mul to_float bind].
    rewrite float_of_int_exact by (split; [lia|]; apply Z.lt_trans with 1000000000; [lia|reflexivity]).
    cbn [bind fmul of_num]. eexists; split; [reflexivity|].
    intros Hn'. exfalso. apply Hn'. reflexivity.
  - contradiction.
  - cbn [num_mul to_float bind].
    rewrite float_of_int_exact by (split; [lia|]; apply Z.lt_trans with 1000000000; [lia|reflexivity]).
    cbn [bind of_num]. eexists; split; [reflexivity|]. intros _.
    apply positive_value_float. unfold fmul.
    apply (of_Q_at_least (1 # units_pos)); [exact of_Q_tiny|].
    pose proof (to_Q_le 1 m ltac:(lia)) as H1.
    pose proof (to_Q_scale n) as Hs.
    pose proof (inject_Z_le 1 n ltac:(lia)) as Hn1.
    assert (E1 : (to_Q 1 == 1 # units_pos)%Q) by apply to_Q_eq.
    rewrite <- E1, Hs.
    assert (0 <= to_Q 1)%Q by (apply to_Q_nonneg; lia).
    change (inject_Z 1) with 1%Q in Hn1. nra.
Qed.

Lemma num_mul_float x d pf :
  to_float x = Return pf ->
  num_mul x (NFloat d) = Return (NFloat (fmul pf d)).
Proof.
  destruct x as [z|x]; cbn [num_mul to_float]; intros E.
  - rewrite E. reflexivity.
  - injection E as ->. reflexivity.
Qed.

Lemma body_spec p r pn pf x y n f :
  as_num p = Some x -> payment_accepted x ->
  as_num r = Some y -> rate_accepted y ->
  as_int pn = Some n -> 1 <= n <= 600 ->
  as_int pf = Some f -> In f allowed_frequencies ->
  exists v, present_value_body p r pn pf = Return v
            /\ (~ is_nan x -> ~ is_nan y ->
                nonnegative_value v /\ (zero_rate r pf -> positive_value v)).
Proof.
  intros Ep Hx Er Hy En Hn Ef Hf.
  destruct (periodic_rate_spec r pf y f Er Hy Ef Hf) as (pr & Epr & Hpr).
  destruct (to_float_payment x Hx) as (xf & Exf & Hxf).
  unfold present_value_body. rewrite Epr. cbn [bind].
  destruct Hpr as [[-> Hnan]|(m & -> & Hm)].
  - change (num_eq (NFloat NaN) (NInt 0)) with false. cbv beta iota.
    destruct (discount_factor_spec NaN pn n En ltac:(lia) (or_introl eq_refl))
      as (d & Ed & Hd).
    rewrite Ed. cbn [bind]. unfold operand. rewrite Ep. cbn [bind].
    rewrite (num_mul_float x d xf Exf). cbn [bind].
    eexists; split; [reflexivity|]. intros _ Hy'. contradiction.
  - rewrite num_eq_zero_fin. destruct (Z.eqb_spec m 0) as [->|Hm0].
    + destruct (undiscounted_sum_spec p pn x n Ep Hx En Hn) as (v & Ev & Hv).
      exists v. split; [exact Ev|]. intros Hx' _.
      split; [apply positive_nonnegative|intros _]; auto.
    + destruct (discount_factor_spec (Fin m) pn n En ltac:(lia)) as (d & Ed & Hd).
      { right. exists m. split; [reflexivity|lia]. }
      rewrite Ed. cbn [bind]. unfold operand. rewrite Ep. cbn [bind].
      rewrite (num_mul_float x d xf Exf). cbn [bind].
      eexists; split; [reflexivity|]. intros Hx' _.
      destruct Hd as [[Hd _]|[_ Hd]]; [discriminate|].
      destruct Hxf as [[_ Hxf]|(p' & -> & Hp')]; [contradiction|].
      pose proof units_pos_lt.
      split.
      * apply nonnegative_value_float, round2_range, product_range; [exact Hp'|].
        apply at_least_weaken with units; [exact Hd|lia].
      * intros (pr' & Epr' & Hz). rewrite Epr in Epr'. injection Epr' as <-.
        rewrite num_eq_zero_fin in Hz. apply Z.eqb_eq in Hz. contradiction.
Qed.

(** *** Calls that pass validation return *)

Lemma validated_body_returns p r n f :
  validate_inputs p r n f = Return tt ->
  exists x y n' f',
    as_num p = Some x /\ payment_accepted x /\
    as_num r = Some y /\ rate_accepted y /\
    as_int n = Some n' /\ 1 <= n' <= 600 /\
    as_int f = Some f' /\ In f' allowed_frequencies.
Proof.
  unfold validate_inputs. intros H.
  destruct (_validate_payment p) as [[]|] eqn:E1; [|discriminate].
  destruct (_validate_interest_rate r) as [[]|] eqn:E2; [|discriminate].
  destruct (_validate_periods n) as [[]|] eqn:E3; [|discriminate].
  cbn [bind] in H.
  destruct (validate_payment_inv _ E1) as (x & ? & ?).
  destruct (validate_rate_inv _ E2) as (y & ? & ?).
  destruct (validate_periods_inv _ E3) as (n' & ? & ?).
  destruct (validate_frequency_inv _ H) as (f' & ? & ?).
  exists x, y, n', f'. auto 10.
Qed.

Theorem validated_inputs_return p r n f :
  validate_inputs p r n f = Return tt ->
  exists v, calculate_present_value p r n f = Return v.
Proof.
  intros H. unfold calculate_present_value. rewrite H. cbn [bind].
  destruct (validated_body_returns _ _ _ _ H)
    as (x & y & n' & f' & Ep & Hx & Er & Hy & En & Hn & Ef & Hf).
  destruct (body_spec p r n f x y n' f' Ep Hx Er Hy En Hn Ef Hf) as (v & Ev & _).
  exists v. exact Ev.
Qed.

(** *** Calls in the domain of the data model *)

Lemma payment_in_domain_inv v :
  payment_in_domain v = true ->
  _validate_payment v = Return tt /\
  exists x, as_num v = Some x /\ ~ is_nan x.
Proof.
  unfold payment_in_domain, _validate_payment.
  destruct (as_num v) as [x|]; [|discriminate].
  intros H. apply andb_true_iff in H. destruct H as [H1 H2].
  unfold num_gt, num_le in *.
  split.
  - destruct (num_compare x (NInt 0)) as [[]|]; try discriminate.
    destruct (num_compare x MAX_PAYMENT) as [[]|]; try discriminate; reflexivity.
  - exists x. split; [reflexivity|]. intros ->. discriminate.
Qed.

Lemma rate_in_domain_inv v :
  rate_in_domain v = true ->
  _validate_interest_rate v = Return tt /\
  exists x, as_num v = Some x /\ ~ is_nan x.
Proof.
  unfold rate_in_domain, _validate_interest_rate.
  destruct (as_num v) as [x|]; [|discriminate].
  intros H. apply andb_true_iff in H. destruct H as [H1 H2].
  unfold num_ge, num_le, num_lt, num_gt in *.
  split.
  - destruct (num_compare x (NInt 0)) as [[]|]; try discriminate;
    destruct (num_compare x MAX_INTEREST_RATE) as [[]|]; try discriminate; reflexivity.
  - exists x. split; [reflexivity|]. intros ->. discriminate.
Qed.

Lemma periods_in_domain_inv v :
  periods_in_domain v = true -> _validate_periods v = Return tt.
Proof.
  unfold periods_in_domain, _validate_periods, MIN_PERIODS, MAX_PERIODS.
  destruct (as_int v) as [n|]; [|discriminate].
  intros H. apply andb_true_iff in H. destruct H as [H1 H2].
  apply Z.leb_le in H1, H2.
  destruct (Z.ltb_spec n 1); [lia|]. destruct (Z.gtb_spec n 600); [lia|]. reflexivity.
Qed.

Lemma frequency_in_domain_inv v :
  frequency_in_domain v = true -> _validate_periods_per_year v = Return tt.
Proof.
  unfold frequency_in_domain, _validate_periods_per_year.
  destruct (as_int v) as [n|]; [|discriminate].
  intros ->. reflexivity.
Qed.

Lemma in_domain_validates p r n f :
  in_domain p r n f = true -> validate_inputs p r n f = Return tt.
Proof.
  unfold in_domain. intros H.
  repeat (apply andb_true_iff in H; destruct H as [H ?]).
  unfold validate_inputs.
  rewrite (proj1 (payment_in_domain_inv _ H)).
  rewrite (proj1 (rate_in_domain_inv _ H2)).
  rewrite (periods_in_domain_inv _ H1).
  rewrite (frequency_in_domain_inv _ H0). reflexivity.
Qed.

(** *** Doubling the payment *)





(** The amount of an accepted payment as a float. *)
Lemma payment_amount p x :
  as_num p = Some x -> payment_accepted x -> ~ is_nan x ->
  exists a q, to_float x = Return (Fin a) /\ 1 <= a <= 1000000000 * units
              /\ value_of p = Some q /\ (q == to_Q a)%Q.
Proof.
  pose proof units_pos_lt. pose proof two_pow_53_big.
  intros Ep Hx Hn.
  destruct x as [z|[|s|a]]; cbn [payment_accepted] in Hx.
  - exists (z * units), (inject_Z z). cbn [to_float].
    rewrite float_of_int_exact by lia.
    split; [reflexivity|]. split; [nia|]. split.
    + destruct p as [|b|z0|x0|s0]; try discriminate; cbn [as_num value_of] in Ep |- *.
      * destruct b; injection Ep as <-; reflexivity.
      * injection Ep as <-; reflexivity.
    + symmetry. apply to_Q_scale.
  - exfalso. apply Hn. reflexivity.
  - contradiction.
  - exists a, (to_Q a). split; [reflexivity|]. split; [lia|]. split.
    + destruct p as [|b|z0|x0|s0]; try discriminate; cbn [as_num value_of] in Ep |- *.
      injection Ep as ->. reflexivity.
    + reflexivity.
Qed.








Lemma in_domain_inv p r n f :
  in_domain p r n f = true ->
  validate_inputs p r n f = Return tt /\
  exists x y n' f',
    as_num p = Some x /\ payment_accepted x /\ ~ is_nan x /\
    as_num r = Some y /\ rate_accepted y /\ ~ is_nan y /\
    as_int n = Some n' /\ 1 <= n' <= 600 /\
    as_int f = Some f' /\ In f' allowed_frequencies.
Proof.
  intros H. pose proof (in_domain_validates _ _ _ _ H) as Hv.
  split; [exact Hv|].
  destruct (validated_body_returns _ _ _ _ Hv)
    as (x & y & n' & f' & Ep & Hx & Er & Hy & En & Hn & Ef & Hf).
  unfold in_domain in H.
  repeat (apply andb_true_iff in H; destruct H as [H ?]).
  destruct (payment_in_domain_inv _ H) as (_ & x' & Ex' & Hx').
  destruct (rate_in_domain_inv _ H2) as (_ & y' & Ey' & Hy').
  rewrite Ep in Ex'. injection Ex' as <-. rewrite Er in Ey'. injection Ey' as <-.
  exists x, y, n', f'. auto 12.
Qed.


End CalculatorFacts.

(* ================================================================== *)
(** ** Validation: boundaries and order *)

Section Validation.
Import Binary64 Py LoanCalculator Spec Binary64Facts CalculatorFacts.
Open Scope string_scope.
Open Scope Z_scope.

Lemma validate_inputs_all p r n f :
  _validate_payment p = Return tt ->
  _validate_interest_rate r = Return tt ->
  _validate_periods n = Return tt ->
  _validate_periods_per_year f = Return tt ->
  validate_inputs p r n f = Return tt.
Proof.
  intros Hp Hr Hn Hf. unfold validate_inputs. rewrite Hp, Hr, Hn, Hf. reflexivity.
Qed.

Lemma all_validated_succeeds p r n f :
  _validate_payment p = Return tt ->
  _validate_interest_rate r = Return tt ->
  _validate_periods n = Return tt ->
  _validate_periods_per_year f = Return tt ->
  succeeds (calculate_present_value p r n f).
Proof.
  intros Hp Hr Hn Hf.
  exact (validated_inputs_return p r n f (validate_inputs_all p r n f Hp Hr Hn Hf)).
Qed.





Lemma above_max_payment_not_nonpositive x :
  num_gt x MAX_PAYMENT = true -> num_le x (NInt 0) = false.
Proof.
  pose proof units_pos_lt.
  unfold num_gt, num_le, MAX_PAYMENT, num_compare, fcompare.
  destruct x as [z|[|s|n]].
  - destruct (Z.compare_spec z 1000000000); try discriminate.
    destruct (Z.compare_spec z 0); try reflexivity; lia.
  - discriminate.
  - destruct s; [discriminate|reflexivity].
  - change (0 * units) with 0.
    destruct (Z.compare_spec n (1000000000 * units)); try discriminate.
    destruct (Z.compare_spec n 0); try reflexivity; lia.
Qed.

Lemma above_max_rate_not_negative x :
  num_gt x MAX_INTEREST_RATE = true -> num_lt x (NInt 0) = false.
Proof.
  pose proof units_pos_lt.
  unfold MAX_INTEREST_RATE. rewrite of_Z_1.
  unfold num_gt, num_lt, num_compare, fcompare.
  destruct x as [z|[|s|n]].
  - destruct (Z.compare_spec (z * units) units); try discriminate.
    destruct (Z.compare_spec z 0); try reflexivity; nia.
  - discriminate.
  - destruct s; [discriminate|reflexivity].
  - change (0 * units) with 0.
    destruct (Z.compare_spec n units); try discriminate.
    destruct (Z.compare_spec n 0); try reflexivity; lia.
Qed.

Lemma payment_above_max_raises p x r n f :
  as_num p = Some x -> num_gt x MAX_PAYMENT = true ->
  calculate_present_value p r n f
  = Raise (ValueError "Payment cannot exceed $1,000,000,000.00").
Proof.
  intros Ep Hx. unfold calculate_present_value, validate_inputs, _validate_payment.
  rewrite Ep, (above_max_payment_not_nonpositive x Hx), Hx. reflexivity.
Qed.

Lemma rate_above_max_raises p r y n f :
  _validate_payment p = Return tt ->
  as_num r = Some y -> num_gt y MAX_INTEREST_RATE = true ->
  calculate_present_value p r n f
  = Raise (ValueError "Interest rate cannot exceed 100.0%").
Proof.
  intros Hp Er Hy.
  unfold calculate_present_value, validate_inputs, _validate_interest_rate.
  rewrite Hp, Er, (above_max_rate_not_negative y Hy), Hy. reflexivity.
Qed.

Lemma negative_rate_raises p r y n f :
  _validate_payment p = Return tt ->
  as_num r = Some y -> num_lt y (NInt 0) = true ->
  calculate_present_value p r n f
  = Raise (ValueError "Interest rate cannot be negative").
Proof.
  intros Hp Er Hy.
  unfold calculate_present_value, validate_inputs, _validate_interest_rate.
  rewrite Hp, Er, Hy. reflexivity.
Qed.

Lemma periods_outside_raise p r v n f :
  _validate_payment p = Return tt ->
  _validate_interest_rate r = Return tt ->
  as_int v = Some n -> n < 1 \/ 600 < n ->
  fails_with InvalidPeriods (calculate_present_value p r v f).
Proof.
  intros Hp Hr Ev Hn.
  unfold calculate_present_value, validate_inputs, _validate_periods,
    MIN_PERIODS, MAX_PERIODS.
  rewrite Hp, Hr, Ev. cbn [bind].
  destruct (Z.ltb_spec n 1).
  - eexists; split; reflexivity.
  - destruct (Z.gtb_spec n 600); [|lia]. eexists; split; reflexivity.
Qed.

Lemma unsupported_frequency_raises p r n v f :
  _validate_payment p = Return tt ->
  _validate_interest_rate r = Return tt ->
  _validate_periods n = Return tt ->
  as_int v = Some f -> ~ In f allowed_frequencies ->
  calculate_present_value p r n v
  = Raise (ValueError "Periods per year must be 1, 2, 4, 12, 52, or 365").
Proof.
  intros Hp Hr Hn Ev Hf.
  unfold calculate_present_value, validate_inputs, _validate_periods_per_year.
  rewrite Hp, Hr, Hn, Ev. cbn [bind].
  destruct (existsb (Z.eqb f) allowed_frequencies) eqn:E; [|reflexivity].
  exfalso. apply Hf. apply existsb_exists in E. destruct E as (g & Hin & Heq).
  apply Z.eqb_eq in Heq. subst g. exact Hin.
Qed.

(** C4 -- Boundary behaviour of validation.  A payment of exactly 0 (as an
    int or as a float) fails with InvalidPayment; a payment of exactly
    MAX_PAYMENT succeeds and every payment above it fails; a rate of exactly
    MAX_INTEREST_RATE succeeds, every rate above it fails and every negative
    rate fails; 1 and 600 periods succeed, 0 and 601 fail; every integer
    frequency outside the allowed list, 7 among them, fails with
    InvalidFrequency.  "Succeeds" and the failures of a later input are
    stated for calls whose other inputs pass their own validators. *)
Theorem boundary_validation :
  (forall r n f,
      fails_with InvalidPayment (calculate_present_value (PyInt 0) r n f)
      /\ fails_with InvalidPayment (calculate_present_value (PyFloat (of_Z 0)) r n f))
  /\ (forall r n f,
         _validate_interest_rate r = Return tt ->
         _validate_periods n = Return tt ->
         _validate_periods_per_year f = Return tt ->
         succeeds (calculate_present_value (PyInt 1000000000) r n f)
         /\ succeeds (calculate_present_value (PyFloat (of_Z 1000000000)) r n f))
  /\ (forall p x r n f,
         as_num p = Some x -> num_gt x MAX_PAYMENT = true ->
         fails_with InvalidPayment (calculate_present_value p r n f))
  /\ (forall p n f,
         _validate_payment p = Return tt ->
         _validate_periods n = Return tt ->
         _validate_periods_per_year f = Return tt ->
         succeeds (calculate_present_value p (PyFloat (of_Z 1)) n f)
         /\ succeeds (calculate_present_value p (PyInt 1) n f))
  /\ (forall p r y n f,
         _validate_payment p = Return tt ->
         as_num r = Some y ->
         num_gt y MAX_INTEREST_RATE = true \/ num_lt y (NInt 0) = true ->
         fails_with InvalidRate (calculate_present_value p r n f))
  /\ (forall p r f,
         _validate_payment p = Return tt ->
         _validate_interest_rate r = Return tt ->
         _validate_periods_per_year f = Return tt ->
         succeeds (calculate_present_value p r (PyInt 1) f)
         /\ succeeds (calculate_present_value p r (PyInt 600) f))
  /\ (forall p r f,
         _validate_payment p = Return tt ->
         _validate_interest_rate r = Return tt ->
         fails_with InvalidPeriods (calculate_present_value p r (PyInt 0) f)
         /\ fails_with InvalidPeriods (calculate_present_value p r (PyInt 601) f))
  /\ (forall p r n z,
         _validate_payment p = Return tt ->
         _validate_interest_rate r = Return tt ->
         _validate_periods n = Return tt ->
         ~ In z allowed_frequencies ->
         fails_with InvalidFrequency (calculate_present_value p r n (PyInt z))).
Proof.
  split; [intros r n f; split; eexists; split; reflexivity|].
  split; [intros r n f Hr Hn Hf; split; apply all_validated_succeeds; auto|].
  split.
  { intros p x r n f Ep Hx.
    rewrite (payment_above_max_raises p x r n f Ep Hx). eexists; split; reflexivity. }
  split; [intros p n f Hp Hn Hf; split; apply all_validated_succeeds; auto|].
  split.
  { intros p r y n f Hp Er [Hy|Hy].
    - rewrite (rate_above_max_raises p r y n f Hp Er Hy). eexists; split; reflexivity.
    - rewrite (negative_rate_raises p r y n f Hp Er Hy). eexists; split; reflexivity. }
  split; [intros p r f Hp Hr Hf; split; apply all_validated_succeeds; auto|].
  split.
  { intros p r f Hp Hr. split.
    - apply (periods_outside_raise p r (PyInt 0) 0 f); auto; lia.
    - apply (periods_outside_raise p r (PyInt 601) 601 f); auto; lia. }
  intros p r n z Hp Hr Hn Hz.
  rewrite (unsupported_frequency_raises p r n (PyInt z) z); auto.
  eexists; split; reflexivity.
Qed.

Lemma boundary_validation_witness :
  succeeds (calculate_present_value (PyInt 1000000000) (PyFloat (dec 5 (-2)))
              (PyInt 60) (PyInt 12))
  /\ fails_with InvalidPayment
       (calculate_present_value (PyInt 1000000001) (PyFloat (dec 5 (-2)))
          (PyInt 60) (PyInt 12))
  /\ succeeds (calculate_present_value (PyInt 1000) (PyFloat (of_Z 1))
                 (PyInt 60) (PyInt 12))
  /\ fails_with InvalidRate
       (calculate_present_value (PyInt 1000) (PyFloat (dec 15 (-1)))
          (PyInt 60) (PyInt 12))
  /\ succeeds (calculate_present_value (PyInt 1000) (PyFloat (dec 5 (-2)))
                 (PyInt 600) (PyInt 12))
  /\ fails_with InvalidPeriods
       (calculate_present_value (PyInt 1000) (PyFloat (dec 5 (-2)))
          (PyInt 601) (PyInt 12))
  /\ fails_with InvalidFrequency
       (calculate_present_value (PyInt 1000) (PyFloat (dec 5 (-2)))
          (PyInt 60) (PyInt 7)).
Proof.
  destruct boundary_validation
    as (_ & Hmax & Habove & Hrate & Hrate' & Hper & Hper' & Hfreq).
  assert (P1 : _validate_payment (PyInt 1000) = Return tt)
    by (vm_compute; reflexivity).
  assert (R1 : _validate_interest_rate (PyFloat (dec 5 (-2))) = Return tt)
    by (vm_compute; reflexivity).
  assert (N1 : _validate_periods (PyInt 60) = Return tt)
    by (vm_compute; reflexivity).
  assert (F1 : _validate_periods_per_year (PyInt 12) = Return tt)
    by (vm_compute; reflexivity).
  assert (G1 : num_gt (NInt 1000000001) MAX_PAYMENT = true)
    by (vm_compute; reflexivity).
  assert (G2 : num_gt (NFloat (dec 15 (-1))) MAX_INTEREST_RATE = true)
    by (vm_compute; reflexivity).
  assert (Z7 : ~ In 7 allowed_frequencies)
    by (simpl; intros [H|[H|[H|[H|[H|[H|[]]]]]]]; discriminate).
  split; [exact (proj1 (Hmax _ _ _ R1 N1 F1))|].
  split; [exact (Habove (PyInt 1000000001) _ _ _ _ eq_refl G1)|].
  split; [exact (proj1 (Hrate _ _ _ P1 N1 F1))|].
  split; [exact (Hrate' _ (PyFloat (dec 15 (-1))) _ _ _ P1 eq_refl (or_introl G2))|].
  split; [exact (proj2 (Hper _ _ _ P1 R1 F1))|].
  split; [exact (proj2 (Hper' _ _ (PyInt 12) P1 R1))|].
  exact (Hfreq _ _ _ 7 P1 R1 N1 Z7).
Defined.


End Validation.

(* ================================================================== *)
(** ** The computed value *)

Section ComputedValue.
Import Binary64 Py LoanCalculator Spec Binary64Facts CalculatorFacts.
Open Scope string_scope.
Open Scope Z_scope.

(** C1 -- The documented annuity formula.  The input
    (100, 1.0, 1, 1) passes validation and has periodic rate 1.0 > 0; every
    intermediate value is exact in binary64.  The documented formula gives
    100 * (1 - 2^-1) / 1 = 50.00, the code evaluates
    100 * ((2 - 2^-1) / 1) and returns 150.0. *)
Theorem discount_factor_uses_two_not_one :
  in_domain (PyInt 100) (PyFloat (of_Z 1)) (PyInt 1) (PyInt 1) = true
  /\ periodic_rate_of (PyFloat (of_Z 1)) (PyInt 1) = Return (of_Z 1)
  /\ calculate_present_value (PyInt 100) (PyFloat (of_Z 1)) (PyInt 1) (PyInt 1)
     = Return (PyFloat (of_Z 150))
  /\ (round_cents (documented_formula 100 1 1) == 50)%Q
  /\ py_eq (PyFloat (of_Z 150)) (PyFloat (of_Q 50)) = false.
Proof.
  split; [vm_compute; reflexivity|].
  split; [vm_compute; reflexivity|].
  split; [vm_compute; reflexivity|].
  split; [vm_compute; reflexivity|].
  vm_compute; reflexivity.
Qed.

Lemma not_within tol x target :
  match x with
  | Fin n => Qle_bool (Qabs (to_Q n - target)) tol = false
  | _ => True
  end ->
  ~ within tol x target.
Proof.
  destruct x as [| |n]; simpl; auto.
  intros H Hle. apply Qle_bool_iff in Hle. rewrite Hle in H. discriminate.
Qed.

(** C2 -- The first concrete scenario.  The call
    calculate_present_value(1000, 0.05, 60, 12) succeeds, but it returns
    292990.71, which is not within 1.0 of 52990.70. *)
Theorem basic_calculation_returns_292990_71 :
  calculate_present_value (PyInt 1000) (PyFloat (dec 5 (-2))) (PyInt 60) (PyInt 12)
  = Return (PyFloat (dec 29299071 (-2)))
  /\ ~ within 1 (dec 29299071 (-2)) (5299070 # 100).
Proof.
  split; [vm_compute; reflexivity|].
  apply not_within. vm_compute. reflexivity.
Qed.

(** C3 -- Zero-rate result against [round(p * n, 2)].  With payment 0.001,
    rate 0, one period and monthly frequency the zero-rate branch returns
    the product 0.001 itself, while [round(0.001 * 1, 2)] is 0.0. *)
Theorem zero_rate_result_is_not_rounded :
  in_domain (PyFloat (dec 1 (-3))) (PyInt 0) (PyInt 1) (PyInt 12) = true
  /\ calculate_present_value (PyFloat (dec 1 (-3))) (PyInt 0) (PyInt 1) (PyInt 12)
     = Return (PyFloat (dec 1 (-3)))
  /\ round2 (fmul (dec 1 (-3)) (of_Z 1)) = of_Z 0
  /\ py_eq (PyFloat (dec 1 (-3))) (PyFloat (of_Z 0)) = false.
Proof.
  split; [vm_compute; reflexivity|].
  split; [vm_compute; reflexivity|].
  split; [vm_compute; reflexivity|].
  vm_compute; reflexivity.
Qed.

(** C6 -- Discounting.  For payment 1000, 60 periods and monthly frequency
    the call at rate 0 returns 60000, the undiscounted sum, and the call at
    rate 0.20 returns 97744.56: the value grew with the rate and is not
    below the undiscounted sum. *)
Theorem higher_rate_returns_more_than_the_sum :
  calculate_present_value (PyInt 1000) (PyFloat (of_Z 0)) (PyInt 60) (PyInt 12)
  = Return (PyInt 60000)
  /\ calculate_present_value (PyInt 1000) (PyFloat (dec 20 (-2))) (PyInt 60) (PyInt 12)
     = Return (PyFloat (dec 9774456 (-2)))
  /\ num_lt (NFloat (dec 9774456 (-2))) (NInt (1000 * 60)) = false
  /\ num_gt (NFloat (dec 9774456 (-2))) (NInt 60000) = true.
Proof.
  split; [vm_compute; reflexivity|].
  split; [vm_compute; reflexivity|].
  split; vm_compute; reflexivity.
Qed.

(** C8 -- Rounding idempotence.  With payment 33.333, rate 0.0 and three
    periods the zero-rate branch returns 99.999, and [round(99.999, 2)] is
    100.0: the returned value is not equal to itself rounded. *)
Theorem zero_rate_result_changes_under_round :
  in_domain (PyFloat (dec 33333 (-3))) (PyFloat (of_Z 0)) (PyInt 3) (PyInt 12) = true
  /\ calculate_present_value (PyFloat (dec 33333 (-3))) (PyFloat (of_Z 0))
       (PyInt 3) (PyInt 12)
     = Return (PyFloat (dec 99999 (-3)))
  /\ py_round2 (PyFloat (dec 99999 (-3))) = PyFloat (of_Z 100)
  /\ py_eq (PyFloat (dec 99999 (-3))) (py_round2 (PyFloat (dec 99999 (-3)))) = false.
Proof.
  split; [vm_compute; reflexivity|].
  split; [vm_compute; reflexivity|].
  split; vm_compute; reflexivity.
Qed.

End ComputedValue.

(* ================================================================== *)
(** ** Linearity in the payment *)

Section Linearity.
Import Binary64 Py LoanCalculator Spec Binary64Facts CalculatorFacts.
Open Scope string_scope.
Open Scope Z_scope.






End Linearity.

(* ================================================================== *)
(** ** Properties of every call in the domain *)

Section InDomain.
Import Binary64 Py LoanCalculator Spec Binary64Facts CalculatorFacts.
Open Scope string_scope.
Open Scope Z_scope.

Lemma nonnegative_equals_itself v : nonnegative_value v -> py_eq v v = true.
Proof.
  unfold nonnegative_value, py_eq, num_ge, num_eq.
  destruct (as_num v) as [x|]; [|contradiction].
  destruct x as [z|[|s|n]]; cbn [num_compare fcompare].
  - intros _. rewrite Z.compare_refl. reflexivity.
  - discriminate.
  - intros _. rewrite eqb_reflx. reflexivity.
  - intros _. rewrite Z.compare_refl. reflexivity.
Qed.

(** A NaN is let through by the payment and rate validators: it fails
    neither [<= 0] nor [> MAX].  This is why the statements below range over
    the domain of the data model and not over whatever passes validation. *)
Remark nan_passes_validation :
  validate_inputs (PyFloat NaN) (PyFloat NaN) (PyInt 1) (PyInt 1) = Return tt
  /\ in_domain (PyFloat NaN) (PyFloat NaN) (PyInt 1) (PyInt 1) = false
  /\ calculate_present_value (PyFloat NaN) (PyFloat NaN) (PyInt 1) (PyInt 1)
     = Return (PyFloat NaN).
Proof. repeat split; vm_compute; reflexivity. Qed.

(** C9 -- Determinism.  The embedding is a function of the four arguments
    alone: no state, clock or random source is threaded through it.  For
    arguments in the domain, any two invocations produce the same outcome,
    that outcome is a returned value, and the two values compare equal
    under Python's [==] (the value is never a NaN). *)
Theorem same_inputs_same_output p r n f first second :
  in_domain p r n f = true ->
  first = calculate_present_value p r n f ->
  second = calculate_present_value p r n f ->
  first = second
  /\ exists v1 v2, first = Return v1 /\ second = Return v2 /\ py_eq v1 v2 = true.
Proof.
  intros Hd -> ->. split; [reflexivity|].
  destruct (in_domain_inv _ _ _ _ Hd)
    as (Hv & x & y & n' & f' & Ep & Hx & Hxn & Er & Hy & Hyn & En & Hn & Ef & Hf).
  destruct (body_spec p r n f x y n' f' Ep Hx Er Hy En Hn Ef Hf) as (v & Ev & Hpos).
  unfold calculate_present_value. rewrite Hv. cbn [bind]. rewrite Ev.
  exists v, v. repeat split.
  apply nonnegative_equals_itself. exact (proj1 (Hpos Hxn Hyn)).
Qed.

Lemma same_inputs_same_output_witness :
  exists v1 v2,
    calculate_present_value (PyInt 500) (PyFloat (of_Z 0)) (PyInt 24) (PyInt 12)
    = Return v1
    /\ calculate_present_value (PyInt 500) (PyFloat (of_Z 0)) (PyInt 24) (PyInt 12)
       = Return v2
    /\ py_eq v1 v2 = true.
Proof.
  assert (D : in_domain (PyInt 500) (PyFloat (of_Z 0)) (PyInt 24) (PyInt 12) = true)
    by (vm_compute; reflexivity).
  exact (proj2 (same_inputs_same_output _ _ _ _ _ _ D eq_refl eq_refl)).
Defined.




End InDomain.

(* ================================================================== *)
(** ** Errors raised and arguments accepted *)

Section Errors.
Import Binary64 Py LoanCalculator Spec Observed Binary64Facts CalculatorFacts.
Open Scope string_scope.
Open Scope Z_scope.

Ltac documented :=
  eexists; split; [reflexivity|]; simpl; auto 12.

Lemma validate_inputs_raises p r n f e :
  validate_inputs p r n f = Raise e -> documented_error e.
Proof.
  unfold validate_inputs, _validate_payment, _validate_interest_rate,
    _validate_periods, _validate_periods_per_year.
  destruct (as_num p) as [x|]; [|intros [= <-]; documented].
  destruct (num_le x (NInt 0)); [intros [= <-]; documented|].
  destruct (num_gt x MAX_PAYMENT); [intros [= <-]; documented|].
  cbn [bind].
  destruct (as_num r) as [y|]; [|intros [= <-]; documented].
  destruct (num_lt y (NInt 0)); [intros [= <-]; documented|].
  destruct (num_gt y MAX_INTEREST_RATE); [intros [= <-]; documented|].
  cbn [bind].
  destruct (as_int n) as [n'|]; [|intros [= <-]; documented].
  destruct (n' <? MIN_PERIODS); [intros [= <-]; documented|].
  destruct (n' >? MAX_PERIODS); [intros [= <-]; documented|].
  cbn [bind].
  destruct (as_int f) as [f'|]; [|intros [= <-]; documented].
  destruct (negb (existsb (Z.eqb f') allowed_frequencies));
    [intros [= <-]; documented|discriminate].
Qed.

(** X1 -- Whatever the four arguments are, the only exception
    [calculate_present_value] raises is a [ValueError] that carries one of
    the eleven messages of the validators: the arithmetic after the
    validation never raises ([TypeError], [ZeroDivisionError] and
    [OverflowError] are unreachable). *)
Theorem raises_only_documented_value_errors p r n f e :
  calculate_present_value p r n f = Raise e -> documented_error e.
Proof.
  intros H.
  destruct (validate_inputs p r n f) as [[]|e'] eqn:V.
  - destruct (validated_inputs_return p r n f V) as (v & Ev).
    rewrite Ev in H. discriminate.
  - unfold calculate_present_value in H. rewrite V in H. cbn [bind] in H.
    injection H as <-. exact (validate_inputs_raises p r n f e' V).
Qed.

Lemma raises_only_documented_value_errors_witness :
  documented_error (ValueError "Periods cannot exceed 600").
Proof.
  assert (E : calculate_present_value (PyInt 1000) (PyFloat (dec 5 (-2)))
                (PyInt 601) (PyInt 12)
              = Raise (ValueError "Periods cannot exceed 600"))
    by (vm_compute; reflexivity).
  exact (raises_only_documented_value_errors _ _ _ _ _ E).
Defined.

(** What each validator lets through. *)
Lemma validate_payment_accepts v x :
  as_num v = Some x -> payment_accepted x -> _validate_payment v = Return tt.
Proof.
  intros E Hx. unfold _validate_payment. rewrite E.
  pose proof units_pos_lt.
  destruct x as [z|[|s|n]]; cbn [payment_accepted] in Hx;
    unfold num_le, num_gt, MAX_PAYMENT, num_compare, fcompare.
  - destruct (Z.compare_spec z 0); try lia;
    destruct (Z.compare_spec z 1000000000); try lia; reflexivity.
  - reflexivity.
  - contradiction.
  - change (0 * units) with 0.
    destruct (Z.compare_spec n 0); try lia;
    destruct (Z.compare_spec n (1000000000 * units)); try lia; reflexivity.
Qed.

Lemma validate_rate_accepts v x :
  as_num v = Some x -> rate_accepted x -> _validate_interest_rate v = Return tt.
Proof.
  intros E Hx. unfold _validate_interest_rate. rewrite E.
  pose proof units_pos_lt.
  unfold MAX_INTEREST_RATE. rewrite of_Z_1.
  destruct x as [z|[|s|n]]; cbn [rate_accepted] in Hx;
    unfold num_lt, num_gt, num_compare, fcompare.
  - destruct (Z.compare_spec z 0); try lia;
    destruct (Z.compare_spec (z * units) units); try nia; reflexivity.
  - reflexivity.
  - contradiction.
  - change (0 * units) with 0.
    destruct (Z.compare_spec n 0); try lia;
    destruct (Z.compare_spec n units); try lia; reflexivity.
Qed.

Lemma validate_periods_accepts v n :
  as_int v = Some n -> 1 <= n <= 600 -> _validate_periods v = Return tt.
Proof.
  intros E Hn. unfold _validate_periods, MIN_PERIODS, MAX_PERIODS. rewrite E.
  destruct (Z.ltb_spec n 1); [lia|]. destruct (Z.gtb_spec n 600); [lia|]. reflexivity.
Qed.

Lemma validate_frequency_accepts v f :
  as_int v = Some f -> In f allowed_frequencies ->
  _validate_periods_per_year v = Return tt.
Proof.
  intros E Hf. unfold _validate_periods_per_year. rewrite E.
  assert (X : existsb (Z.eqb f) allowed_frequencies = true).
  { apply existsb_exists. exists f. split; [exact Hf|apply Z.eqb_refl]. }
  rewrite X. reflexivity.
Qed.

(** X2 -- The four validators together let an argument tuple through
    exactly when the payment is an [int] or [float] ([bool] included) that
    is a NaN or lies in (0, 1e9], the rate is a number that is a NaN or
    lies in [0, 1], the period count is an [int] in 1..600 and the
    frequency is an [int] of the list 1, 2, 4, 12, 52, 365. *)
Theorem validation_accepts_exactly p r n f :
  validate_inputs p r n f = Return tt <->
  exists x y n' f',
    as_num p = Some x /\ payment_accepted x /\
    as_num r = Some y /\ rate_accepted y /\
    as_int n = Some n' /\ 1 <= n' <= 600 /\
    as_int f = Some f' /\ In f' allowed_frequencies.
Proof.
  split.
  - apply validated_body_returns.
  - intros (x & y & n' & f' & Ep & Hx & Er & Hy & En & Hn & Ef & Hf).
    unfold validate_inputs.
    rewrite (validate_payment_accepts p x Ep Hx).
    rewrite (validate_rate_accepts r y Er Hy).
    rewrite (validate_periods_accepts n n' En Hn).
    rewrite (validate_frequency_accepts f f' Ef Hf). reflexivity.
Qed.

End Errors.

(* ================================================================== *)
(** ** Not-a-number arguments *)

Section NotANumber.
Import Binary64 Py LoanCalculator Spec Observed Binary64Facts CalculatorFacts.
Open Scope string_scope.
Open Scope Z_scope.

Lemma float_of_int_periods n :
  1 <= n <= 600 -> float_of_int n = Return (Fin (n * units)).
Proof.
  intros H. apply float_of_int_exact. split; [lia|].
  apply Z.lt_trans with 1000000000; [lia|reflexivity].
Qed.

Lemma periodic_rate_nan f f' :
  as_int f = Some f' -> In f' allowed_frequencies ->
  periodic_rate_of (PyFloat NaN) f = Return NaN.
Proof.
  intros Ef Hf. apply allowed_range in Hf.
  unfold periodic_rate_of, operand. rewrite (as_int_as_num _ _ Ef).
  cbn [as_num bind]. unfold num_truediv. unfold num_eq, num_compare.
  destruct (Z.compare_spec f' 0); try lia.
  cbn [to_float bind]. rewrite float_of_int_exact by lia. reflexivity.
Qed.

(** A NaN payment with an accepted rate, period count and frequency. *)
Lemma nan_payment_body r n f y n' f' :
  as_num r = Some y -> rate_accepted y ->
  as_int n = Some n' -> 1 <= n' <= 600 ->
  as_int f = Some f' -> In f' allowed_frequencies ->
  present_value_body (PyFloat NaN) r n f = Return (PyFloat NaN).
Proof.
  intros Er Hy En Hn Ef Hf.
  destruct (periodic_rate_spec r f y f' Er Hy Ef Hf) as (pr & Epr & Hpr).
  unfold present_value_body. rewrite Epr. cbn [bind].
  destruct (num_eq (NFloat pr) (NInt 0)) eqn:Z0.
  - unfold undiscounted_sum, operand. rewrite (as_int_as_num _ _ En).
    cbn [as_num bind num_mul to_float].
    rewrite float_of_int_periods by exact Hn. reflexivity.
  - assert (Hpr' : pr = NaN \/ fin_between 1 units pr).
    { destruct Hpr as [[-> _]|(m & -> & Hm)]; [left; reflexivity|right].
      rewrite num_eq_zero_fin in Z0. apply Z.eqb_neq in Z0.
      exists m. split; [reflexivity|lia]. }
    destruct (discount_factor_spec pr n n' En ltac:(lia) Hpr') as (d & Ed & _).
    rewrite Ed. cbn [bind]. unfold operand. cbn [as_num bind num_mul to_float].
    reflexivity.
Qed.

Lemma nan_rate_body p x n f n' f' :
  as_num p = Some x -> payment_accepted x ->
  as_int n = Some n' -> 1 <= n' <= 600 ->
  as_int f = Some f' -> In f' allowed_frequencies ->
  present_value_body p (PyFloat NaN) n f = Return (PyFloat NaN).
Proof.
  intros Ep Hx En Hn Ef Hf.
  unfold present_value_body. rewrite (periodic_rate_nan f f' Ef Hf). cbn [bind].
  change (num_eq (NFloat NaN) (NInt 0)) with false. cbv beta iota.
  destruct (discount_factor_spec NaN n n' En ltac:(lia) (or_introl eq_refl))
    as (d & Ed & [[_ ->]|[C _]]); [|contradiction].
  rewrite Ed. cbn [bind]. unfold operand. rewrite Ep. cbn [bind].
  destruct (to_float_payment x Hx) as (xf & Exf & _).
  rewrite (num_mul_float x NaN xf Exf). cbn [bind].
  destruct xf; reflexivity.
Qed.

(** X3 -- A NaN is not rejected and is handed back: when the four
    validators pass and the payment or the annual rate is the float NaN,
    [calculate_present_value] returns NaN (no exception, no number). *)
Theorem nan_is_accepted_and_returned p r n f :
  validate_inputs p r n f = Return tt ->
  p = PyFloat NaN \/ r = PyFloat NaN ->
  calculate_present_value p r n f = Return (PyFloat NaN).
Proof.
  intros Hv Hnan.
  destruct (validated_body_returns _ _ _ _ Hv)
    as (x & y & n' & f' & Ep & Hx & Er & Hy & En & Hn & Ef & Hf).
  unfold calculate_present_value. rewrite Hv. cbn [bind].
  destruct Hnan as [->| ->].
  - exact (nan_payment_body r n f y n' f' Er Hy En Hn Ef Hf).
  - exact (nan_rate_body p x n f n' f' Ep Hx En Hn Ef Hf).
Qed.

Lemma nan_is_accepted_and_returned_witness :
  calculate_present_value (PyFloat NaN) (PyFloat (dec 5 (-2))) (PyInt 60) (PyInt 12)
  = Return (PyFloat NaN).
Proof.
  assert (V : validate_inputs (PyFloat NaN) (PyFloat (dec 5 (-2))) (PyInt 60) (PyInt 12)
              = Return tt) by (vm_compute; reflexivity).
  exact (nan_is_accepted_and_returned _ _ _ _ V (or_introl eq_refl)).
Defined.

End NotANumber.

(* ================================================================== *)
(** ** The two branches *)

Section Branches.
Import Binary64 Py LoanCalculator Spec Observed Binary64Facts CalculatorFacts.
Open Scope string_scope.
Open Scope Z_scope.

(** The discount factor written out, for a positive periodic rate. *)
Lemma discount_factor_form m pn n :
  as_int pn = Some n -> 1 <= n -> 1 <= m <= units ->
  exists b q s,
    fadd (Fin units) (Fin m) = Fin b /\ units <= b <= 2 * units /\
    fpow_fin b (- n) = Fin q /\ 0 <= q <= units /\
    fsub (Fin (2 * units)) (Fin q) = Fin s /\ units <= s <= 2 * units /\
    discount_factor_of (Fin m) pn = Return (fdiv (Fin s) (Fin m)).
Proof.
  intros En Hn Hm. pose proof units_pos_lt.
  unfold discount_factor_of, int_operand. rewrite En. cbn [bind].
  rewrite (float_of_int_exact 1) by (split; [lia|reflexivity]).
  rewrite (float_of_int_exact 2) by (split; [lia|reflexivity]).
  cbn [bind]. rewrite Z.mul_1_l.
  destruct (base_range m ltac:(lia)) as (b & Eb & Hb). rewrite Eb.
  destruct (pow_range b n ltac:(lia) Hn) as (q & Eq & Hq).
  destruct (numerator_range q Hq) as (s & Es & Hs).
  exists b, q, s. repeat (split; [first [reflexivity|assumption|lia]|]).
  unfold float_pow.
  destruct (Z.eqb_spec (- n) 0); [lia|].
  destruct (Z.eqb_spec b 0); [lia|].
  rewrite Eq. cbn [bind]. rewrite Es.
  unfold num_truediv. rewrite num_eq_zero_fin.
  destruct (Z.eqb_spec m 0); [lia|]. reflexivity.
Qed.

(** The two branches of the body, for accepted rate, periods and
    frequency. *)
Lemma body_cases r pn pf y n f :
  as_num r = Some y -> rate_accepted y ->
  as_int pn = Some n -> 1 <= n <= 600 ->
  as_int pf = Some f -> In f allowed_frequencies ->
  (zero_rate r pf /\
   forall p, present_value_body p r pn pf = undiscounted_sum p pn)
  \/ (~ zero_rate r pf /\
      exists d, (d = NaN \/ at_least units d) /\
        forall p x xf, as_num p = Some x -> to_float x = Return xf ->
          present_value_body p r pn pf = Return (PyFloat (round2 (fmul xf d)))).
Proof.
  intros Er Hy En Hn Ef Hf.
  destruct (periodic_rate_spec r pf y f Er Hy Ef Hf) as (pr & Epr & Hpr).
  destruct (num_eq (NFloat pr) (NInt 0)) eqn:Z0.
  - left. split; [exists pr; auto|].
    intros p. unfold present_value_body. rewrite Epr. cbn [bind]. rewrite Z0.
    reflexivity.
  - right. split.
    { intros (pr' & Epr' & Hz). rewrite Epr in Epr'. injection Epr' as <-.
      rewrite Z0 in Hz. discriminate. }
    assert (Hpr' : pr = NaN \/ fin_between 1 units pr).
    { destruct Hpr as [[-> _]|(m & -> & Hm)]; [left; reflexivity|right].
      rewrite num_eq_zero_fin in Z0. apply Z.eqb_neq in Z0.
      exists m. split; [reflexivity|lia]. }
    destruct (discount_factor_spec pr pn n En ltac:(lia) Hpr') as (d & Ed & Hd).
    exists d. split.
    { destruct Hd as [[_ ->]|[_ Hd]]; [left; reflexivity|right; exact Hd]. }
    intros p x xf Ep Exf. unfold present_value_body. rewrite Epr. cbn [bind].
    rewrite Z0, Ed. cbn [bind]. unfold operand. rewrite Ep. cbn [bind].
    rewrite (num_mul_float x d xf Exf). reflexivity.
Qed.

Lemma to_float_accepted x :
  payment_accepted x -> exists xf, to_float x = Return xf.
Proof. intros H. destruct (to_float_payment x H) as (xf & E & _). eauto. Qed.

(** X4 -- Type of the result.  For validated arguments the returned value
    is an [int] exactly when the zero-rate branch is taken with an [int]
    (or [bool]) payment, and it is then the exact product
    [payment * periods]; in every other case it is a [float]. *)
Theorem result_is_int_exactly_for_int_payment_at_zero_rate p r n f v :
  validate_inputs p r n f = Return tt ->
  calculate_present_value p r n f = Return v ->
  ((exists z, v = PyInt z) <->
   (zero_rate r f /\ exists z, as_num p = Some (NInt z)))
  /\ (forall z k, zero_rate r f -> as_num p = Some (NInt z) -> as_int n = Some k ->
        v = PyInt (z * k)).
Proof.
  intros Hv Ev.
  destruct (validated_body_returns _ _ _ _ Hv)
    as (x & y & n' & f' & Ep & Hx & Er & Hy & En & Hn & Ef & Hf).
  unfold calculate_present_value in Ev. rewrite Hv in Ev. cbn [bind] in Ev.
  destruct (to_float_accepted x Hx) as (xf & Exf).
  destruct (body_cases r n f y n' f' Er Hy En Hn Ef Hf)
    as [[Hz Hb]|[Hnz (d & _ & Hb)]].
  - rewrite Hb in Ev. unfold undiscounted_sum, operand in Ev.
    rewrite Ep, (as_int_as_num _ _ En) in Ev. cbn [bind] in Ev.
    destruct x as [z|a].
    + cbn [num_mul bind of_num] in Ev. injection Ev as <-.
      split.
      * split; [intros _; split; [exact Hz|eauto]|intros _; eauto].
      * intros z0 k _ Hp Ek. rewrite Ep in Hp. injection Hp as <-.
        rewrite En in Ek. injection Ek as <-. reflexivity.
    + cbn [num_mul to_float bind] in Ev.
      rewrite float_of_int_periods in Ev by exact Hn.
      cbn [bind of_num] in Ev. injection Ev as <-.
      split.
      * split; [intros (z & Hc); discriminate|].
        intros (_ & z & Hc). rewrite Ep in Hc. discriminate.
      * intros z k _ Hc. rewrite Ep in Hc. discriminate.
  - rewrite (Hb p x xf Ep Exf) in Ev. injection Ev as <-.
    split.
    + split; [intros (z & Hc); discriminate|intros (Hz & _); contradiction].
    + intros z k Hz. contradiction.
Qed.

Lemma result_is_int_exactly_for_int_payment_at_zero_rate_witness :
  ((exists z, PyInt 12000 = PyInt z) <->
   (zero_rate (PyFloat (of_Z 0)) (PyInt 12)
    /\ exists z, as_num (PyInt 500) = Some (NInt z)))
  /\ (forall z k, zero_rate (PyFloat (of_Z 0)) (PyInt 12) ->
        as_num (PyInt 500) = Some (NInt z) -> as_int (PyInt 24) = Some k ->
        PyInt 12000 = PyInt (z * k)).
Proof.
  assert (V : validate_inputs (PyInt 500) (PyFloat (of_Z 0)) (PyInt 24) (PyInt 12)
              = Return tt) by (vm_compute; reflexivity).
  assert (E : calculate_present_value (PyInt 500) (PyFloat (of_Z 0)) (PyInt 24) (PyInt 12)
              = Return (PyInt 12000)) by (vm_compute; reflexivity).
  exact (result_is_int_exactly_for_int_payment_at_zero_rate _ _ _ _ _ V E).
Defined.

(** Half a unit per period rounds to zero, anything above it does not. *)
Lemma of_Q_half_unit : of_Q (1 # (2 * units_pos)) = Fin 0.
Proof. vm_compute. reflexivity. Qed.

Lemma of_Q_above_half_unit : of_Q (366 # (730 * units_pos)) = Fin 1.
Proof. vm_compute. reflexivity. Qed.

(** X5 -- Underflow of the periodic rate.  For a finite float annual rate
    of [m] units of 2^-1074 in [0, 1] and an allowed frequency [f'], the
    zero-rate branch (the early return of [payment * periods]) is taken
    exactly when [2 * m <= f']: a positive annual rate whose quotient by
    the frequency rounds to zero is treated as a zero rate. *)
Theorem zero_rate_branch_threshold m f f' :
  0 <= m <= units -> as_int f = Some f' -> In f' allowed_frequencies ->
  (zero_rate (PyFloat (Fin m)) f <-> 2 * m <= f').
Proof.
  intros Hm Ef Hf. pose proof (allowed_range f' Hf) as Hr.
  pose proof units_pos_lt.
  assert (Epr : periodic_rate_of (PyFloat (Fin m)) f
                = Return (of_Q (to_Q m / to_Q (f' * units)))).
  { unfold periodic_rate_of, operand. rewrite (as_int_as_num _ _ Ef).
    cbn [as_num bind]. unfold num_truediv. unfold num_eq, num_compare.
    destruct (Z.compare_spec f' 0); try lia.
    cbn [to_float bind]. rewrite float_of_int_exact by lia. reflexivity. }
  set (q := (to_Q m / to_Q (f' * units))%Q) in *.
  assert (Hf1 : (1 <= to_Q (f' * units))%Q).
  { rewrite to_Q_scale. change 1%Q with (inject_Z 1). apply inject_Z_le. lia. }
  assert (Hq0 : (0 <= q)%Q).
  { apply Qle_shift_div_l; [lra|]. pose proof (to_Q_nonneg m ltac:(lia)). lra. }
  split.
  - intros (pr & E & Hz). rewrite Epr in E. injection E as <-.
    destruct (Z_le_gt_dec (2 * m) f') as [|Hgt]; [assumption|exfalso].
    assert (Hq : (366 # (730 * units_pos) <= q)%Q).
    { apply Qle_shift_div_l; [lra|].
      rewrite to_Q_scale, to_Q_eq. unfold Qle, Qmult; cbn [Qnum Qden inject_Z].
      rewrite !Pos2Z.inj_mul. fold units. nia. }
    pose proof (of_Q_at_least _ q 1 of_Q_above_half_unit Hq) as A.
    destruct (of_Q q) as [|s|w]; cbn [at_least] in A; try contradiction.
    + subst s. discriminate.
    + rewrite num_eq_zero_fin in Hz. apply Z.eqb_eq in Hz. lia.
  - intros Hle. exists (of_Q q). split; [exact Epr|].
    assert (Hq : (q <= 1 # (2 * units_pos))%Q).
    { apply Qle_shift_div_r; [lra|].
      rewrite to_Q_scale, to_Q_eq. unfold Qle, Qmult; cbn [Qnum Qden inject_Z].
      rewrite !Pos2Z.inj_mul. fold units. nia. }
    destruct (of_Q_between 0 (1 # (2 * units_pos)) q 0 0 of_Q_0 of_Q_half_unit Hq0 Hq)
      as (w & -> & Hw).
    rewrite num_eq_zero_fin. apply Z.eqb_eq. lia.
Qed.

Lemma zero_rate_branch_threshold_witness :
  zero_rate (PyFloat (Fin 6)) (PyInt 12) <-> 2 * 6 <= 12.
Proof.
  assert (Hm : 0 <= 6 <= units) by (split; [lia|vm_compute; discriminate]).
  assert (Hf : In 12 allowed_frequencies) by (simpl; auto 8).
  exact (zero_rate_branch_threshold 6 (PyInt 12) 12 Hm eq_refl Hf).
Defined.

End Branches.

(* ================================================================== *)
(** ** Monotonicity and overflow *)

Section Monotonicity.
Import Binary64 Py LoanCalculator Spec Observed Binary64Facts CalculatorFacts.
Open Scope string_scope.
Open Scope Z_scope.

Lemma num_le_fle x y : num_le x y = true <-> fle (float_image x) (float_image y).
Proof.
  pose proof units_pos_lt.
  unfold num_le, fle. destruct x as [a|a], y as [b|b]; cbn [num_compare float_image].
  - unfold fcompare.
    destruct (Z.compare_spec a b); destruct (Z.compare_spec (a * units) (b * units));
      try nia; split; auto; discriminate.
  - destruct (fcompare (Fin (a * units)) b) as [[]|]; split; auto; discriminate.
  - destruct (fcompare a (Fin (b * units))) as [[]|]; split; auto; discriminate.
  - destruct (fcompare a b) as [[]|]; split; auto; discriminate.
Qed.

Lemma fle_fin a b : fle (Fin a) (Fin b) <-> a <= b.
Proof.
  unfold fle, fcompare. destruct (Z.compare_spec a b); split; intros; try lia; auto.
Qed.

Lemma fle_inf x : x <> NaN -> fle x (Inf false).
Proof. destruct x as [|[]|]; unfold fle; simpl; auto. Qed.

Lemma of_Q_not_nan q : of_Q q <> NaN.
Proof. apply rnd_not_nan. Qed.

Lemma fle_not_nan_l x y : fle x y -> x <> NaN.
Proof. destruct x; unfold fle; simpl; intros H; [contradiction|discriminate..]. Qed.

Lemma fle_not_nan_r x y : fle x y -> y <> NaN.
Proof.
  destruct x, y; unfold fle; simpl; intros H; try contradiction; discriminate.
Qed.

Lemma round2_not_nan x : x <> NaN -> round2 x <> NaN.
Proof. destruct x; simpl; auto. intros _. apply of_Q_not_nan. Qed.

Lemma round2_mono x x' : fle x x' -> fle (round2 x) (round2 x').
Proof.
  intros H.
  destruct x as [|s|y]; [destruct (fle_not_nan_l _ _ H); reflexivity| |].
  - destruct s.
    + pose proof (round2_not_nan x' (fle_not_nan_r _ _ H)) as N.
      cbn [round2]. destruct (round2 x') as [|[]|]; unfold fle; simpl; auto.
    + destruct x' as [|[]|]; unfold fle in H; simpl in H; try contradiction.
      exact I.
  - destruct x' as [|s'|y']; [destruct (fle_not_nan_r _ _ H); reflexivity| |].
    + destruct s'; [unfold fle in H; simpl in H; contradiction|].
      cbn [round2]. apply fle_inf. apply of_Q_not_nan.
    + apply fle_fin in H. cbn [round2]. apply of_Q_mono.
      pose proof (to_Q_le y y' H) as Hq. unfold Qle in *. cbn [Qnum Qden].
      assert (rne_div (Qnum (to_Q y) * 100) (Zpos (Qden (to_Q y)))
              <= rne_div (Qnum (to_Q y') * 100) (Zpos (Qden (to_Q y')))).
      { apply rne_div_mono; lia. }
      lia.
Qed.

Lemma product_mono a a' d d' :
  1 <= a <= a' -> at_least 0 d -> fle d d' ->
  fle (fmul (Fin a) d) (fmul (Fin a') d').
Proof.
  intros Ha Hd H.
  destruct d as [|s|d]; cbn [at_least] in Hd; try contradiction.
  - subst s. destruct d' as [|[]|]; unfold fle in H; simpl in H; try contradiction.
    cbn [fmul]. destruct (Z.eqb_spec a 0); [lia|]. destruct (Z.eqb_spec a' 0); [lia|].
    destruct (Z.ltb_spec a 0); [lia|]. destruct (Z.ltb_spec a' 0); [lia|]. exact I.
  - destruct d' as [|s'|d']; [destruct (fle_not_nan_r _ _ H); reflexivity| |].
    + destruct s'; [unfold fle in H; simpl in H; contradiction|].
      cbn [fmul]. destruct (Z.eqb_spec a' 0); [lia|].
      destruct (Z.ltb_spec a' 0); [lia|]. apply fle_inf. apply of_Q_not_nan.
    + apply fle_fin in H. cbn [fmul]. apply of_Q_mono.
      pose proof (to_Q_nonneg a ltac:(lia)). pose proof (to_Q_nonneg d Hd).
      pose proof (to_Q_le a a' ltac:(lia)). pose proof (to_Q_le d d' H).
      nra.
Qed.

Lemma quotient_mono s s' m :
  0 <= s <= s' -> 0 < m -> fle (fdiv (Fin s) (Fin m)) (fdiv (Fin s') (Fin m)).
Proof.
  intros Hs Hm. cbn [fdiv]. apply of_Q_mono.
  pose proof (to_Q_pos m Hm). pose proof (to_Q_le s s' ltac:(lia)).
  unfold Qdiv. apply Qmult_le_compat_r; [assumption|].
  apply Qlt_le_weak, Qinv_lt_0_compat. assumption.
Qed.



(** Unfolding the body on its two branches. *)
Lemma body_zero_branch p r pn pf pr :
  periodic_rate_of r pf = Return pr -> num_eq (NFloat pr) (NInt 0) = true ->
  present_value_body p r pn pf = undiscounted_sum p pn.
Proof.
  intros E Z0. unfold present_value_body. rewrite E. cbn [bind]. rewrite Z0. reflexivity.
Qed.

Lemma body_general_branch p r pn pf pr d x xf :
  periodic_rate_of r pf = Return pr -> num_eq (NFloat pr) (NInt 0) = false ->
  discount_factor_of pr pn = Return d ->
  as_num p = Some x -> to_float x = Return xf ->
  present_value_body p r pn pf = Return (PyFloat (round2 (fmul xf d))).
Proof.
  intros E Z0 Ed Ep Exf. unfold present_value_body. rewrite E. cbn [bind].
  rewrite Z0, Ed. cbn [bind]. unfold operand. rewrite Ep. cbn [bind].
  rewrite (num_mul_float x d xf Exf). reflexivity.
Qed.

(** [payment * periods] seen as a float. *)
Lemma undiscounted_image p pn x a k :
  as_num p = Some x -> payment_accepted x -> to_float x = Return (Fin a) ->
  as_int pn = Some k -> 1 <= k <= 600 ->
  exists v xv, undiscounted_sum p pn = Return v /\ as_num v = Some xv
               /\ float_image xv = of_Q (to_Q a * inject_Z k).
Proof.
  pose proof units_pos_lt. pose proof two_pow_53_big.
  intros Ep Hx Ea En Hn. unfold undiscounted_sum, operand.
  rewrite Ep, (as_int_as_num _ _ En). cbn [bind].
  destruct x as [z|[|s|b]]; cbn [payment_accepted] in Hx.
  - cbn [num_mul bind of_num].
    cbn [to_float] in Ea. rewrite float_of_int_exact in Ea by lia.
    injection Ea as <-.
    exists (PyInt (z * k)), (NInt (z * k)). repeat split.
    cbn [float_image]. symmetry.
    rewrite (of_Q_Qeq _ (inject_Z (z * k))).
    + apply of_Z_exact. split; [nia|].
      apply Z.le_lt_trans with (1000000000 * 600); [nia|reflexivity].
    + rewrite to_Q_scale. rewrite inject_Z_mult. reflexivity.
  - discriminate.
  - contradiction.
  - cbn [to_float] in Ea. injection Ea as <-.
    cbn [num_mul to_float bind].
    rewrite float_of_int_exact by lia. cbn [bind of_num].
    eexists _, _. repeat split. cbn [float_image fmul].
    apply of_Q_Qeq. rewrite to_Q_scale. reflexivity.
Qed.


Lemma periodic_rate_in_domain r f y f' :
  as_num r = Some y -> rate_accepted y -> ~ is_nan y ->
  as_int f = Some f' -> In f' allowed_frequencies ->
  exists m, periodic_rate_of r f = Return (Fin m) /\ 0 <= m <= units.
Proof.
  intros Er Hy Hn Ef Hf.
  destruct (periodic_rate_spec r f y f' Er Hy Ef Hf) as (pr & Epr & [[_ C]|(m & -> & Hm)]).
  - contradiction.
  - exists m. split; assumption.
Qed.

Lemma result_le_float x x' : fle x x' -> result_le (PyFloat x) (PyFloat x').
Proof. intros H. unfold result_le. cbn [as_num]. apply num_le_fle. exact H. Qed.



(** X7 -- A larger payment never lowers the value: for two calls in the
    domain that differ only in the payment, with amounts [q <= q'], the
    value returned for [q] is [<=] the value returned for [q'], on both
    branches and through the final rounding. *)
Theorem larger_payment_never_lower_the_value p p' r n f q q' v v' :
  in_domain p r n f = true ->
  in_domain p' r n f = true ->
  value_of p = Some q -> value_of p' = Some q' -> (q <= q')%Q ->
  calculate_present_value p r n f = Return v ->
  calculate_present_value p' r n f = Return v' ->
  result_le v v'.
Proof.
  intros D D' Vq Vq' Hq Ev Ev'.
  destruct (in_domain_inv _ _ _ _ D)
    as (Hv & x & y & k & f' & Ep & Hx & Hxn & Er & Hy & Hyn & En & Hn & Ef & Hf).
  destruct (in_domain_inv _ _ _ _ D')
    as (Hv' & x' & _ & _ & _ & Ep' & Hx' & Hxn' & _).
  unfold calculate_present_value in Ev, Ev'. rewrite Hv in Ev. rewrite Hv' in Ev'.
  cbn [bind] in Ev, Ev'.
  destruct (periodic_rate_in_domain r f y f' Er Hy Hyn Ef Hf) as (m & Epr & Hm).
  destruct (payment_amount p x Ep Hx Hxn) as (a & qa & Ea & Ha & Va & Hqa).
  destruct (payment_amount p' x' Ep' Hx' Hxn') as (a' & qa' & Ea' & Ha' & Va' & Hqa').
  rewrite Vq in Va. injection Va as <-. rewrite Vq' in Va'. injection Va' as <-.
  assert (Haa : a <= a').
  { destruct (Z_le_gt_dec a a'); [assumption|exfalso].
    pose proof (to_Q_lt a' a ltac:(lia)). lra. }
  pose proof units_pos_lt.
  destruct (num_eq (NFloat (Fin m)) (NInt 0)) eqn:Z0.
  - rewrite (body_zero_branch p r n f _ Epr Z0) in Ev.
    rewrite (body_zero_branch p' r n f _ Epr Z0) in Ev'.
    destruct (undiscounted_image p n x a k Ep Hx Ea En Hn) as (w & xw & Ew & Aw & Iw).
    destruct (undiscounted_image p' n x' a' k Ep' Hx' Ea' En Hn) as (w' & xw' & Ew' & Aw' & Iw').
    rewrite Ew in Ev. injection Ev as <-. rewrite Ew' in Ev'. injection Ev' as <-.
    unfold result_le. rewrite Aw, Aw'. apply num_le_fle. rewrite Iw, Iw'.
    apply of_Q_mono.
    pose proof (inject_Z_le 0 k ltac:(lia)). change (inject_Z 0) with 0%Q in *.
    rewrite <- Hqa, <- Hqa'. nra.
  - assert (Z1 := Z0). rewrite num_eq_zero_fin in Z0. apply Z.eqb_neq in Z0.
    destruct (discount_factor_form m n k En ltac:(lia) ltac:(lia))
      as (b & q0 & s & Eb & Hb & Eq & Hq0 & Es & Hs & Ed).
    rewrite (body_general_branch p r n f _ _ x _ Epr Z1 Ed Ep Ea) in Ev.
    rewrite (body_general_branch p' r n f _ _ x' _ Epr Z1 Ed Ep' Ea') in Ev'.
    injection Ev as <-. injection Ev' as <-.
    apply result_le_float, round2_mono, product_mono; [lia| |].
    + apply at_least_weaken with units; [apply quotient_range; lia|lia].
    + apply quotient_mono; lia.
Qed.

Lemma larger_payment_never_lower_the_value_witness :
  result_le (PyFloat (dec 29299071 (-2))) (PyFloat (dec 58598141 (-2))).
Proof.
  assert (D : in_domain (PyInt 1000) (PyFloat (dec 5 (-2))) (PyInt 60) (PyInt 12) = true)
    by (vm_compute; reflexivity).
  assert (D' : in_domain (PyInt 2000) (PyFloat (dec 5 (-2))) (PyInt 60) (PyInt 12) = true)
    by (vm_compute; reflexivity).
  assert (E : calculate_present_value (PyInt 1000) (PyFloat (dec 5 (-2))) (PyInt 60)
                (PyInt 12) = Return (PyFloat (dec 29299071 (-2))))
    by (vm_compute; reflexivity).
  assert (E' : calculate_present_value (PyInt 2000) (PyFloat (dec 5 (-2))) (PyInt 60)
                 (PyInt 12) = Return (PyFloat (dec 58598141 (-2))))
    by (vm_compute; reflexivity).
  assert (Hq : (inject_Z 1000 <= inject_Z 2000)%Q) by (apply inject_Z_le; lia).
  exact (larger_payment_never_lower_the_value _ _ _ _ _ _ _ _ _
           D D' eq_refl eq_refl Hq E E').
Defined.

(** Quotients of 2^1024 and more overflow. *)
Lemma of_Q_two_pow_1024 : of_Q (inject_Z (2 ^ 1024)) = Inf false.
Proof. vm_compute. reflexivity. Qed.

Lemma of_Q_overflow q : (inject_Z (2 ^ 1024) <= q)%Q -> of_Q q = Inf false.
Proof.
  intros H. pose proof (of_Q_mono _ _ H) as M. rewrite of_Q_two_pow_1024 in M.
  pose proof (of_Q_not_nan q).
  destruct (of_Q q) as [|[]|]; unfold fle in M; simpl in M; try contradiction; auto.
Qed.

(** X8 -- Overflow at tiny rates.  For arguments in the domain whose
    periodic rate [annual_rate / periods_per_year] is positive and at most
    2^-1024 (at most [2^50] units of 2^-1074), the division by the periodic
    rate on line 55 overflows and [calculate_present_value] returns the
    float [inf] instead of raising or returning an amount. *)
Theorem tiny_positive_rate_returns_infinity p r n f m :
  in_domain p r n f = true ->
  periodic_rate_of r f = Return (Fin m) -> 0 < m <= 2 ^ 50 ->
  calculate_present_value p r n f = Return (PyFloat (Inf false)).
Proof.
  intros D Epr Hm.
  destruct (in_domain_inv _ _ _ _ D)
    as (Hv & x & y & k & f' & Ep & Hx & Hxn & Er & Hy & Hyn & En & Hn & Ef & Hf).
  unfold calculate_present_value. rewrite Hv. cbn [bind].
  destruct (payment_amount p x Ep Hx Hxn) as (a & qa & Ea & Ha & _).
  pose proof units_pos_lt.
  assert (Hu : 2 ^ 50 * 2 ^ 1024 = units) by (rewrite units_pow; reflexivity).
  assert (Hm' : 1 <= m <= units).
  { split; [lia|]. assert (0 < 2 ^ 1024) by (apply Z.pow_pos_nonneg; lia). nia. }
  assert (Z1 : num_eq (NFloat (Fin m)) (NInt 0) = false).
  { rewrite num_eq_zero_fin. apply Z.eqb_neq. lia. }
  destruct (discount_factor_form m n k En ltac:(lia) Hm')
    as (b & q0 & s & Eb & Hb & Eq & Hq0 & Es & Hs & Ed).
  rewrite (body_general_branch p r n f _ _ x _ Epr Z1 Ed Ep Ea).
  assert (Einf : fdiv (Fin s) (Fin m) = Inf false).
  { cbn [fdiv]. apply of_Q_overflow.
    pose proof (to_Q_pos m ltac:(lia)).
    apply Qle_shift_div_l; [assumption|].
    apply Qle_trans with 1%Q; [|apply to_Q_ge_1; lia].
    rewrite to_Q_eq. unfold Qle, Qmult; cbn [Qnum Qden inject_Z].
    rewrite Pos.mul_1_l. fold units.
    assert (0 < 2 ^ 1024) by (apply Z.pow_pos_nonneg; lia). nia. }
  rewrite Einf. cbn [fmul].
  destruct (Z.eqb_spec a 0); [lia|]. destruct (Z.ltb_spec a 0); [lia|]. reflexivity.
Qed.

Lemma tiny_positive_rate_returns_infinity_witness :
  calculate_present_value (PyInt 1000) (PyFloat (Fin 1)) (PyInt 60) (PyInt 1)
  = Return (PyFloat (Inf false)).
Proof.
  assert (D : in_domain (PyInt 1000) (PyFloat (Fin 1)) (PyInt 60) (PyInt 1) = true)
    by (vm_compute; reflexivity).
  assert (E : periodic_rate_of (PyFloat (Fin 1)) (PyInt 1) = Return (Fin 1))
    by (vm_compute; reflexivity).
  assert (Hm : 0 < 1 <= 2 ^ 50) by lia.
  exact (tiny_positive_rate_returns_infinity _ _ _ _ 1 D E Hm).
Defined.

End Monotonicity.

(* ================================================================== *)
(** ** The command-line program: what a run writes *)

Section CommandLine.
Import Binary64 Py LoanCalculator Spec Observed Main Binary64Facts CalculatorFacts.
Open Scope string_scope.
Open Scope Z_scope.

(** A call with a float payment returns a float or raises one of the
    validators' errors. *)
Lemma float_payment_call x r n f :
  (validate_inputs (PyFloat x) r n f = Return tt
   /\ exists w, calculate_present_value (PyFloat x) r n f = Return (PyFloat w))
  \/ (exists msg, In msg validation_messages
        /\ validate_inputs (PyFloat x) r n f = Raise (ValueError msg)
        /\ calculate_present_value (PyFloat x) r n f = Raise (ValueError msg)).
Proof.
  destruct (validate_inputs (PyFloat x) r n f) as [[]|e] eqn:V.
  - left. split; [reflexivity|].
    destruct (validated_body_returns _ _ _ _ V)
      as (x' & y & n' & f' & Ep & Hx & Er & Hy & En & Hn & Ef & Hf).
    cbn [as_num] in Ep. injection Ep as <-.
    unfold calculate_present_value. rewrite V. cbn [bind].
    destruct (body_cases r n f y n' f' Er Hy En Hn Ef Hf)
      as [[_ Hb]|[_ (d & _ & Hb)]].
    + rewrite Hb. unfold undiscounted_sum, operand.
      rewrite (as_int_as_num _ _ En). cbn [as_num bind num_mul to_float].
      rewrite float_of_int_periods by exact Hn. cbn [bind of_num]. eauto.
    + rewrite (Hb (PyFloat x) (NFloat x) x eq_refl eq_refl). eauto.
  - right. destruct (validate_inputs_raises _ _ _ _ _ V) as (msg & -> & Hmsg).
    exists msg. split; [exact Hmsg|]. split; [reflexivity|].
    unfold calculate_present_value. rewrite V. reflexivity.
Qed.

Lemma hundred_exact : float_of_int 100 = Return (Fin (100 * units)).
Proof. apply float_of_int_exact. split; [lia|reflexivity]. Qed.

Lemma percentage_division y :
  num_truediv (NFloat y) (NInt 100) = Return (rate_of_percentage y).
Proof.
  unfold num_truediv. change (num_eq (NInt 100) (NInt 0)) with false.
  cbn [to_float bind]. rewrite hundred_exact. reflexivity.
Qed.

Section Runs.
Variable float_of_string : string -> float64 + string.
Variable int_of_string : string -> Z + string.
Variable format_money : float64 -> string.
Variable builtin_message : exn -> string.

Ltac start :=
  unfold main, main_body, try_except, io_bind, input, print, ret, throw,
    lift, money, py_float, py_int.

Ltac step :=
  unfold io_bind, lift, ret, throw;
  cbn [stdin stdout operand as_num to_float num_mul num_sub bind].

(** X9 -- A successful run of [main].  When the three lines read parse to a
    payment [x], a percentage [y] and a number of years [k], the payment is
    a NaN or in (0, 1e9], the rate [y / 100] is a NaN or in [0, 1] and
    [1 <= k <= 50], then the calculator is called with [k * 12] periods and
    the default frequency 12, returns a float [pv], and [main] ends normally
    having written the banner, the three prompts and the three result
    lines: the value [pv], the total [x * (k * 12)] and the difference
    [total - pv]. *)
Theorem main_reports_three_amounts s1 s2 s3 rest out x y k :
  float_of_string s1 = inl x -> float_of_string s2 = inl y ->
  int_of_string s3 = inl k ->
  payment_accepted (NFloat x) ->
  rate_accepted (NFloat (rate_of_percentage y)) ->
  1 <= k <= 50 ->
  exists pv,
    calculate_present_value (PyFloat x) (PyFloat (rate_of_percentage y))
      (PyInt (k * 12)) (PyInt 12) = Return (PyFloat pv)
    /\ main float_of_string int_of_string format_money builtin_message
         (Console (s1 :: s2 :: s3 :: rest) out)
       = (inl tt,
          Console rest
            (out ++ banner ++ prompts
             ++ report format_money pv (fmul x (Fin (k * 12 * units))))%list).
Proof.
  intros H1 H2 H3 Hx Hy Hk.
  assert (Hk' : 1 <= k * 12 <= 600) by lia.
  assert (V : validate_inputs (PyFloat x) (PyFloat (rate_of_percentage y))
                (PyInt (k * 12)) (PyInt 12) = Return tt).
  { unfold validate_inputs.
    rewrite (validate_payment_accepts (PyFloat x) (NFloat x) eq_refl Hx).
    rewrite (validate_rate_accepts (PyFloat (rate_of_percentage y)) _ eq_refl Hy).
    rewrite (validate_periods_accepts (PyInt (k * 12)) (k * 12) eq_refl Hk').
    reflexivity. }
  destruct (float_payment_call x (PyFloat (rate_of_percentage y)) (PyInt (k * 12)) (PyInt 12))
    as [(_ & pv & E)|(msg & _ & V' & _)].
  2:{ rewrite V in V'. discriminate V'. }
  exists pv. split; [exact E|].
  start. step. rewrite H1. step. rewrite H2. step.
  rewrite percentage_division. step. rewrite H3. step.
  rewrite E. step.
  rewrite (float_of_int_periods (k * 12) Hk'). step.
  unfold banner, prompts, report. rewrite <- !app_assoc. reflexivity.
Qed.

(** X10 -- A rejected run of [main].  When the three lines parse but the
    payment, the rate [y / 100] or the number of years (outside 1..50,
    since the periods are [k * 12] and at most 600 are allowed) is not
    accepted, the calculator raises a [ValueError] with one of the
    validators' messages and [main] ends normally having written the
    banner, the three prompts and the single line [Error: <message>]; no
    result line is written. *)
Theorem main_reports_the_validation_error s1 s2 s3 rest out x y k :
  float_of_string s1 = inl x -> float_of_string s2 = inl y ->
  int_of_string s3 = inl k ->
  ~ (payment_accepted (NFloat x)
     /\ rate_accepted (NFloat (rate_of_percentage y))
     /\ 1 <= k <= 50) ->
  exists msg,
    In msg validation_messages
    /\ calculate_present_value (PyFloat x) (PyFloat (rate_of_percentage y))
         (PyInt (k * 12)) (PyInt 12) = Raise (ValueError msg)
    /\ main float_of_string int_of_string format_money builtin_message
         (Console (s1 :: s2 :: s3 :: rest) out)
       = (inl tt,
          Console rest (out ++ banner ++ prompts ++ [error_line msg])%list).
Proof.
  intros H1 H2 H3 Hno.
  destruct (float_payment_call x (PyFloat (rate_of_percentage y)) (PyInt (k * 12)) (PyInt 12))
    as [(V & _)|(msg & Hmsg & _ & E)].
  - exfalso. apply Hno.
    destruct (validated_body_returns _ _ _ _ V)
      as (x' & y' & n' & f' & Ep & Hx & Er & Hy & En & Hn & _).
    cbn [as_num] in Ep, Er. injection Ep as <-. injection Er as <-.
    cbn [as_int] in En. injection En as <-.
    split; [exact Hx|]. split; [exact Hy|lia].
  - exists msg. split; [exact Hmsg|]. split; [exact E|].
    start. step. rewrite H1. step. rewrite H2. step.
    rewrite percentage_division. step. rewrite H3. step.
    rewrite E. step.
    unfold main_handler, is_value_error, str, print. step.
    unfold banner, prompts, error_line. rewrite <- !app_assoc. reflexivity.
Qed.


Ltac handle := unfold main_handler, is_value_error, str, print; step.

Ltac finish :=
  eexists _, _; split; [reflexivity|]; cbn [app stdout stdin];
  first [ intros H; discriminate H
        | intros _; split; [cbn [List.length]; lia|reflexivity] ].

(** X11 -- [main] never lets an exception escape, whatever the input and
    the builtins' answers; and the second [except] clause (the line
    [Unexpected error: ...]) is reached only when the input ends before
    the third line: it then reports the [EOFError] of [input].  Every
    parsing or validation failure is reported by the first clause. *)
Theorem unexpected_error_only_at_end_of_input lines :
  exists rest out,
    main float_of_string int_of_string format_money builtin_message
      (Console lines [])
    = (inl tt, Console rest out)
    /\ (existsb unexpected out = true ->
        (List.length lines < 3)%nat
        /\ List.last out ""
           = line (newline ++ "Unexpected error: EOF when reading a line")).
Proof.
  start.
  destruct lines as [|s1 rest]; step; [handle; finish|].
  destruct (float_of_string s1) as [x|msg1]; step; [|handle; finish].
  destruct rest as [|s2 rest]; step; [handle; finish|].
  destruct (float_of_string s2) as [y|msg2]; step; [|handle; finish].
  rewrite percentage_division. step.
  destruct rest as [|s3 rest]; step; [handle; finish|].
  destruct (int_of_string s3) as [k|msg3]; step; [|handle; finish].
  destruct (float_payment_call x (PyFloat (rate_of_percentage y)) (PyInt (k * 12)) (PyInt 12))
    as [(V & pv & E)|(msg & _ & _ & E)]; rewrite E; step; [|handle; finish].
  destruct (validated_body_returns _ _ _ _ V)
    as (_ & _ & n' & _ & _ & _ & _ & _ & En & Hn & _).
  cbn [as_int] in En. injection En as <-.
  rewrite (float_of_int_periods (k * 12) Hn). step.
  finish.
Qed.

End Runs.

Lemma main_reports_three_amounts_witness :
  exists pv,
    calculate_present_value (PyFloat (of_Z 50))
      (PyFloat (rate_of_percentage (of_Z 50))) (PyInt (5 * 12)) (PyInt 12)
    = Return (PyFloat pv)
    /\ main (fun _ => inl (of_Z 50)) (fun _ => inl 5) (fun _ => "") (fun _ => "")
         (Console ["50"; "50"; "5"] [])
       = (inl tt,
          Console []
            ([] ++ banner ++ prompts
             ++ report (fun _ => "") pv (fmul (of_Z 50) (Fin (5 * 12 * units))))%list).
Proof.
  assert (Hx : payment_accepted (NFloat (of_Z 50)))
    by (vm_compute; split; [reflexivity|discriminate]).
  assert (Hy : rate_accepted (NFloat (rate_of_percentage (of_Z 50))))
    by (vm_compute; split; discriminate).
  assert (Hk : 1 <= 5 <= 50) by lia.
  exact (main_reports_three_amounts
           (fun _ => inl (of_Z 50)) (fun _ => inl 5) (fun _ => "") (fun _ => "")
           "50" "50" "5" [] [] (of_Z 50) (of_Z 50) 5
           eq_refl eq_refl eq_refl Hx Hy Hk).
Defined.

Lemma main_reports_the_validation_error_witness :
  exists msg,
    In msg validation_messages
    /\ calculate_present_value (PyFloat (of_Z 50))
         (PyFloat (rate_of_percentage (of_Z 50))) (PyInt (60 * 12)) (PyInt 12)
       = Raise (ValueError msg)
    /\ main (fun _ => inl (of_Z 50)) (fun _ => inl 60) (fun _ => "") (fun _ => "")
         (Console ["50"; "50"; "60"] [])
       = (inl tt, Console [] ([] ++ banner ++ prompts ++ [error_line msg])%list).
Proof.
  assert (Hno : ~ (payment_accepted (NFloat (of_Z 50))
                   /\ rate_accepted (NFloat (rate_of_percentage (of_Z 50)))
                   /\ 1 <= 60 <= 50))
    by (intros (_ & _ & H); lia).
  exact (main_reports_the_validation_error
           (fun _ => inl (of_Z 50)) (fun _ => inl 60) (fun _ => "") (fun _ => "")
           "50" "50" "60" [] [] (of_Z 50) (of_Z 50) 60
           eq_refl eq_refl eq_refl Hno).
Defined.

End CommandLine.

(* ================================================================== *)
(** ** The command-line program: the percentage *)

Section Percentage.
Import Binary64 Py LoanCalculator Spec Observed Main Binary64Facts CalculatorFacts.
Open Scope string_scope.
Open Scope Z_scope.

(** Quotients by 100 at the two ends of the accepted range. *)
Lemma of_Q_minus_half_unit : of_Q ((-1) # (2 * units_pos)) = Fin 0.
Proof. vm_compute. reflexivity. Qed.

Lemma of_Q_below_minus_half_unit : of_Q ((-51) # (100 * units_pos)) = Fin (-1).
Proof. vm_compute. reflexivity. Qed.

Lemma of_Q_next_after_100 :
  of_Q ((100 * units + 2 ^ 1028) # (100 * units_pos)) = Fin (units + 2 ^ 1022).
Proof. vm_compute. reflexivity. Qed.

(** The float after 100.0 is [2^-46] away. *)
Lemma representable_above_100 m :
  representable m -> 100 * units < m -> 100 * units + 2 ^ 1028 <= m.
Proof.
  intros (a & j & Ha & Hj & ->) Hm.
  assert (U : units = 2 ^ 46 * 2 ^ 1028) by (rewrite units_pow; reflexivity).
  assert (P : 0 < 2 ^ 1028) by (apply Z.pow_pos_nonneg; lia).
  destruct (Z_lt_le_dec j 1028) as [Hlt|Hge].
  - exfalso.
    assert (2 ^ j <= 2 ^ 1027) by (apply Z.pow_le_mono_r; lia).
    assert (E : 2 ^ 1028 = 2 * 2 ^ 1027) by reflexivity.
    assert (0 < 2 ^ 1027) by (apply Z.pow_pos_nonneg; lia).
    assert (F : 2 ^ 53 = 9007199254740992) by reflexivity.
    assert (G : 2 ^ 46 = 70368744177664) by reflexivity.
    rewrite U, E, G in Hm. rewrite F in Ha. nia.
  - replace j with ((j - 1028) + 1028) in * by lia.
    rewrite Z.pow_add_r in * by lia.
    assert (0 < 2 ^ (j - 1028)) by (apply Z.pow_pos_nonneg; lia).
    set (t := a * 2 ^ (j - 1028)) in *.
    assert (E : a * (2 ^ (j - 1028) * 2 ^ 1028) = t * 2 ^ 1028) by (unfold t; ring).
    rewrite E in *. rewrite U in *.
    assert (G : 2 ^ 46 = 70368744177664) by reflexivity. rewrite G in *.
    nia.
Qed.

Lemma rate_of_percentage_fin m :
  rate_of_percentage (Fin m) = of_Q (to_Q m / 100).
Proof.
  unfold rate_of_percentage, fdiv. apply of_Q_Qeq.
  rewrite (to_Q_scale 100). reflexivity.
Qed.

(** X12 -- Which percentages [main] passes.  For a finite float percentage
    of [m] units of 2^-1074, the rate [pct / 100] that [main] hands to the
    calculator passes [_validate_interest_rate] exactly when
    [-50 <= m <= 100 * units]: every percentage up to 100.0 and no float
    above it, and below zero only the few subnormals whose hundredth
    rounds to zero. *)
Theorem percentage_accepted_up_to_100 m :
  representable (Z.abs m) ->
  (rate_accepted (NFloat (rate_of_percentage (Fin m))) <-> -50 <= m <= 100 * units).
Proof.
  intros Hrep. pose proof units_pos_lt as Hu.
  rewrite rate_of_percentage_fin.
  split.
  - intros Hacc.
    destruct (of_Q (to_Q m / 100)) as [|s|w] eqn:Ew; cbn [rate_accepted] in Hacc;
      [destruct (of_Q_not_nan _ Ew)|contradiction|].
    split.
    + destruct (Z_le_gt_dec (-50) m) as [|Hlt]; [assumption|exfalso].
      assert (Hq : (to_Q m / 100 <= (-51) # (100 * units_pos))%Q).
      { apply Qle_shift_div_r; [reflexivity|].
        rewrite to_Q_eq. unfold Qle, Qmult; cbn [Qnum Qden inject_Z].
        rewrite !Pos2Z.inj_mul. fold units. nia. }
      pose proof (of_Q_le_fin _ _ w (-1) Hq of_Q_below_minus_half_unit Ew). lia.
    + destruct (Z_le_gt_dec m (100 * units)) as [|Hgt]; [assumption|exfalso].
      assert (Hm : Z.abs m = m) by lia. rewrite Hm in Hrep.
      pose proof (representable_above_100 m Hrep ltac:(lia)) as Hnext.
      assert (Hq : ((100 * units + 2 ^ 1028) # (100 * units_pos) <= to_Q m / 100)%Q).
      { apply Qle_shift_div_l; [reflexivity|].
        rewrite to_Q_eq. unfold Qle, Qmult; cbn [Qnum Qden inject_Z].
        rewrite !Pos2Z.inj_mul. fold units. nia. }
      pose proof (of_Q_at_least _ _ _ of_Q_next_after_100 Hq) as A.
      rewrite Ew in A. cbn [at_least] in A.
      assert (0 < 2 ^ 1022) by (apply Z.pow_pos_nonneg; lia). lia.
  - intros [Hlo Hhi].
    assert (Hq1 : ((-1) # (2 * units_pos) <= to_Q m / 100)%Q).
    { apply Qle_shift_div_l; [reflexivity|].
      rewrite to_Q_eq. unfold Qle, Qmult; cbn [Qnum Qden inject_Z].
      rewrite !Pos2Z.inj_mul. fold units. nia. }
    assert (Hq2 : (to_Q m / 100 <= 1)%Q).
    { apply Qle_shift_div_r; [reflexivity|].
      rewrite to_Q_eq. unfold Qle, Qmult; cbn [Qnum Qden inject_Z].
      fold units. nia. }
    destruct (of_Q_between _ _ _ 0 units of_Q_minus_half_unit of_Q_1 Hq1 Hq2)
      as (w & -> & Hw).
    cbn [rate_accepted]. exact Hw.
Qed.

Lemma percentage_accepted_up_to_100_witness :
  rate_accepted (NFloat (rate_of_percentage (Fin (100 * units))))
  <-> -50 <= 100 * units <= 100 * units.
Proof.
  assert (H : representable (Z.abs (100 * units))).
  { exists 25, 1076. split; [lia|]. split; [lia|]. vm_compute. reflexivity. }
  exact (percentage_accepted_up_to_100 (100 * units) H).
Defined.

End Percentage.
